(** * ECG anomaly detection notebooks: a shallow embedding

    The repository consists of two Jupyter notebooks that drive an external
    spiking-network library:

    - the workshop notebook "Hardware demonstration: ECG anomaly detection"
      (module [Workshop] below), and
    - "ECG Demo Notebook.ipynb" (module [Demo] below).

    A notebook is a list of code cells; a cell is a straight-line Python
    script over the kernel's global namespace.  Each cell is embedded as a
    computation in a state-and-exception monad whose state holds the
    namespace, the store of numpy arrays, and the trace of the effects that
    leave the notebook (library constructors and methods, file loads,
    plotting, magics).  An array in the store carries its first dimension;
    its contents are handled through a small interface to numpy ([Arrays]),
    which module [Float64] implements on lists of binary64 floats. *)

From Stdlib Require Import Floats ZArith Lia.
From stdpp Require Import base gmap list strings.

Set Warnings "-inexact-float,-register-all".
Local Open Scope string_scope.
Local Open Scope Z_scope.
Local Open Scope nat_scope.

(** ** Python slices *)

(** A slice [start:stop] with step 1; an omitted bound is [None]. *)
Record slice := Slice { start : option Z; stop : option Z }.

(** Python's normalisation of a slice bound against a length: a negative
    bound counts from the end, and the result is clipped to [0, len]. *)
Definition clip_index (len : nat) (i : Z) : nat :=
  let i' := if (i <? 0)%Z then (i + Z.of_nat len)%Z else i in
  if (i' <? 0)%Z then 0 else Nat.min (Z.to_nat i') len.

Definition slice_lo (len : nat) (s : slice) : nat :=
  match start s with None => 0 | Some i => clip_index len i end.

Definition slice_hi (len : nat) (s : slice) : nat :=
  match stop s with None => len | Some i => clip_index len i end.

Definition in_slice (len : nat) (s : slice) (i : nat) : bool :=
  (slice_lo len s <=? i) && (i <? slice_hi len s).

(** [l[s]] on a sequence. *)
Definition get_slice {A} (s : slice) (l : list A) : list A :=
  let lo := slice_lo (length l) s in
  take (slice_hi (length l) s - lo) (drop lo l).

(** ** The part of numpy the notebooks use

    [vec] is the type of 1-D arrays and [mat] the type of 2-D arrays. *)

Class Arrays (vec mat : Type) := {
  arr_zeros : nat -> nat -> mat;                        (* [np.zeros((n, k))] *)
  arr_hstack : mat -> mat -> mat;                       (* [np.hstack((a, b))] *)
  arr_mul : float -> mat -> mat;                        (* [a * c] *)
  arr_vmul : float -> vec -> vec;                       (* [v * c] *)
  arr_imul_block : slice -> slice -> float -> mat -> mat; (* [a[rows, cols] *= c] *)
  arr_columns : slice -> mat -> mat;                    (* [a[:, cols]] *)
  arr_rows : slice -> mat -> mat;                       (* [a[rows]] *)
  arr_vslice : slice -> vec -> vec                      (* [v[s]] *)
}.

(** numpy arrays of float64, as lists. *)
Module Float64.
Abbreviation vector := (list float).
Abbreviation matrix := (list (list float)).

Definition zeros (n k : nat) : matrix := replicate n (replicate k 0%float).

(** The rows are joined (numpy first checks that both arrays have the
    same number of rows, see [np_hstack]). *)
Definition hstack (a b : matrix) : matrix := zip_with app a b.

Definition vmul_scalar (c : float) (v : vector) : vector :=
  map (fun x => (x * c)%float) v.

Definition mul_scalar (c : float) (m : matrix) : matrix :=
  map (vmul_scalar c) m.

(** In place, on the block the two slices select. *)
Definition imul_block (rows cols : slice) (c : float) (m : matrix) : matrix :=
  imap (fun i row =>
          if in_slice (length m) rows i
          then imap (fun j x => if in_slice (length row) cols j
                                then (x * c)%float else x) row
          else row) m.

Definition columns (cols : slice) (m : matrix) : matrix := map (get_slice cols) m.

(** Entry [(i, j)] of a matrix. *)
Definition elem (m : matrix) (i j : nat) : option float :=
  row ← m !! i; row !! j.

#[export] Instance arrays : Arrays vector matrix := {|
  arr_zeros := zeros;
  arr_hstack := hstack;
  arr_mul := mul_scalar;
  arr_vmul := vmul_scalar;
  arr_imul_block := imul_block;
  arr_columns := columns;
  arr_rows := get_slice;
  arr_vslice := get_slice
|}.
End Float64.

(** ** Python values *)

Inductive value :=
  | VNone
  | VBool (b : bool)
  | VInt (n : Z)
  | VFloat (x : float)
  | VStr (s : string)
  | VTuple (vs : list value)
  | VList (vs : list value)
  | VInts (ids : list Z)                 (* a list of ints *)
  | VDict (kvs : list (string * value))
  | VArr (loc : nat)                     (* a numpy array, by its address in the store *)
  | VModule (path : string)              (* an imported module *)
  | VGlobal (module name : string)       (* a function, class or constant of a module *)
  | VRes (n : nat)                       (* what the n-th traced call returned *)
  | VAttr (v : value) (a : string)       (* [v.a] of a library object *)
  | VItem (v : value) (k : value)        (* [v[k]] of a library object *)
  | VOp (op : string) (args : list value). (* arithmetic on library values *)

(** An argument of a call: positional, keyword, or a [**kwargs] expansion. *)
Inductive arg :=
  | Pos (v : value)
  | Kw (k : string) (v : value)
  | StarStar (v : value).

Inductive event :=
  | EImport (module : string)                       (* [import m], [from m import ..] *)
  | EMagic (line : string)                          (* [%magic] *)
  | EShell (line : string)                          (* [!command] *)
  | ECall (callee : value) (args : list arg)        (* a call that leaves the notebook *)
  | ESetAttr (obj : value) (a : string) (v : value) (* [obj.a = v] *)
  | ESetItem (obj : value) (k : value) (v : value)  (* [obj[k] = v] *)
  | EArrayWrite (loc : nat)                         (* in-place update of a numpy array *)
  | EDisplay (v : value).                           (* a trailing expression, shown by the kernel *)

Inductive exn :=
  | NameError (x : string)
  | TypeError
  | ValueError
  | IndexError
  | FileNotFoundError (path : string).

(** The builtins the notebooks use; a name is looked up in the globals
    first and among the builtins second. *)
Definition builtins : list string :=
  ["abs"; "dict"; "enumerate"; "list"; "print"; "zip"].

(** An array of the store: 1-D, or 2-D with its number of rows (numpy's
    [shape[0]]). *)
Inductive ndarray (vec mat : Type) :=
  | Arr1 (v : vec)
  | Arr2 (n : nat) (m : mat).
Arguments Arr1 {vec mat} v.
Arguments Arr2 {vec mat} n m.

(** A trace entry: the event and the array store as it was at that moment,
    so that an array handed to the library can be read as it was handed over. *)
Record entry (vec mat : Type) := Entry { ev : event; mem : list (ndarray vec mat) }.
Arguments Entry {vec mat} ev mem.
Arguments ev {vec mat} e.
Arguments mem {vec mat} e.

Record state (vec mat : Type) := State {
  names : gmap string value;            (* the kernel's global namespace *)
  arrays : list (ndarray vec mat);      (* numpy arrays by address *)
  trace : list (entry vec mat)          (* oldest first *)
}.
Arguments State {vec mat} names arrays trace.
Arguments names {vec mat} s.
Arguments arrays {vec mat} s.
Arguments trace {vec mat} s.

(** ** What a run depends on

    The notebooks read the files of the repository's [network/] folder and
    call into the external library; neither is part of the notebooks'
    source.  A [World] fixes what those reads and calls yield. *)

(** A stored 2-D array: its number of rows and its contents. *)
Record npy (mat : Type) := Npy { nrows : nat; data : mat }.
Arguments Npy {mat} nrows data.
Arguments nrows {mat} _.
Arguments data {mat} _.

Definition stored {vec mat} (f : npy mat) : ndarray vec mat := Arr2 (nrows f) (data f).

Inductive file (vec mat : Type) :=
  | FArray (a : ndarray vec mat)   (* a .npy file *)
  | FArchive.                      (* a .npz archive; its contents stay opaque *)
Arguments FArray {vec mat} a.
Arguments FArchive {vec mat}.

Record World (vec mat : Type) := {
  weights_res_in_npy : npy mat;         (* network/weights_res_in.npy *)
  weights_rec_npy : npy mat;            (* network/weights_rec.npy *)
  weights_expand_npy : npy mat;         (* network/weights_expand.npy *)
  readout_weights_npy : npy mat;        (* network/readout_weights.npy *)
  readout_bias_npy : vec;               (* network/readout_bias.npy *)
  readout_weights_hw_npy : npy mat;     (* network/readout_weights_hw.npy *)
  readout_bias_hw_npy : vec;            (* network/readout_bias_hw.npy *)
  readout_hw_py : option (npy mat * vec);
    (* network/readout_weights_hw.py and network/readout_bias_hw.py, if present *)
  layer_size : nat -> nat;
    (* the [size] attribute of the layer object that the n-th call created *)
  rectangle : Z -> Z -> Z -> list Z;
    (* the ids [rectangular_neuron_arrangement(first_neuron, num_neurons, width)] returns *)
  labels : list string;                 (* scripts.plot_example_beats.labels *)
  ipympl_installed : bool               (* whether find_spec('ipympl') finds the package *)
}.
Arguments weights_res_in_npy {vec mat} w.
Arguments weights_rec_npy {vec mat} w.
Arguments weights_expand_npy {vec mat} w.
Arguments readout_weights_npy {vec mat} w.
Arguments readout_bias_npy {vec mat} w.
Arguments readout_weights_hw_npy {vec mat} w.
Arguments readout_bias_hw_npy {vec mat} w.
Arguments readout_hw_py {vec mat} w.
Arguments layer_size {vec mat} w n.
Arguments rectangle {vec mat} w first num width.
Arguments labels {vec mat} w.
Arguments ipympl_installed {vec mat} w.

(** ** The monad of a cell: state, and Python exceptions

    A raised exception keeps the state reached so far, as the kernel does. *)

Definition M (vec mat : Type) (A : Type) : Type :=
  state vec mat -> state vec mat * (exn + A).

Section Semantics.
Context {vec mat : Type} `{!Arrays vec mat}.

Local Abbreviation M := (M vec mat).
Local Abbreviation state := (state vec mat).
Local Abbreviation ndarray := (ndarray vec mat).
Local Abbreviation World := (World vec mat).

Definition initial : state := State ∅ [] [].

Definition read_file (w : World) (path : string) : option (file vec mat) :=
  if decide (path = "network/weights_res_in.npy") then Some (FArray (stored (weights_res_in_npy w)))
  else if decide (path = "network/weights_rec.npy") then Some (FArray (stored (weights_rec_npy w)))
  else if decide (path = "network/weights_expand.npy") then Some (FArray (stored (weights_expand_npy w)))
  else if decide (path = "network/readout_weights.npy") then Some (FArray (stored (readout_weights_npy w)))
  else if decide (path = "network/readout_bias.npy") then Some (FArray (Arr1 (readout_bias_npy w)))
  else if decide (path = "network/readout_weights_hw.npy") then Some (FArray (stored (readout_weights_hw_npy w)))
  else if decide (path = "network/readout_bias_hw.npy") then Some (FArray (Arr1 (readout_bias_hw_npy w)))
  else if decide (path = "network/readout_weights_hw.py") then (fun p => FArray (stored p.1)) <$> readout_hw_py w
  else if decide (path = "network/readout_bias_hw.py") then (fun p => FArray (Arr1 p.2)) <$> readout_hw_py w
  else if decide (path = "network/kwargs_reservoir.npz") then Some FArchive
  else None.

#[export] Instance M_ret : MRet M := fun A a s => (s, inr a).
#[export] Instance M_bind : MBind M := fun A B f m s =>
  match m s with
  | (s', inr a) => f a s'
  | (s', inl e) => (s', inl e)
  end.

Definition raise {A} (e : exn) : M A := fun s => (s, inl e).

Definition of_option {A} (e : exn) (o : option A) : M A :=
  match o with Some a => mret a | None => raise e end.

Definition name (x : string) : M value := fun s =>
  match names s !! x with
  | Some v => (s, inr v)
  | None => if bool_decide (x ∈ builtins) then (s, inr (VGlobal "builtins" x))
            else (s, inl (NameError x))
  end.

Definition assign (x : string) (v : value) : M unit := fun s =>
  (State (<[x := v]> (names s)) (arrays s) (trace s), inr tt).

(** Log an event; the result is its index in the trace. *)
Definition emit (e : event) : M nat := fun s =>
  (State (names s) (arrays s) (trace s ++ [Entry e (arrays s)])%list, inr (length (trace s))).

(** A call into a library: logged, and its result named after its index. *)
Definition call (f : value) (args : list arg) : M value :=
  n ← emit (ECall f args); mret (VRes n).

Definition call_ (f : value) (args : list arg) : M unit :=
  _ ← call f args; mret tt.

Definition setattr (obj : value) (a : string) (v : value) : M unit :=
  _ ← emit (ESetAttr obj a v); mret tt.

Definition setitem (obj k v : value) : M unit :=
  _ ← emit (ESetItem obj k v); mret tt.

Definition magic (line : string) : M unit := _ ← emit (EMagic line); mret tt.
Definition shell (line : string) : M unit := _ ← emit (EShell line); mret tt.
Definition display (v : value) : M unit := _ ← emit (EDisplay v); mret tt.

(** [import m as x] *)
Definition import_as (m x : string) : M unit :=
  _ ← emit (EImport m); assign x (VModule m).

Fixpoint for_each {A} (l : list A) (body : A -> M unit) : M unit :=
  match l with
  | [] => mret tt
  | x :: l' => body x;; for_each l' body
  end.

(** [from m import x1, x2, ..] for functions and classes of [m]. *)
Definition from_import (m : string) (xs : list string) : M unit :=
  _ ← emit (EImport m); for_each xs (fun x => assign x (VGlobal m x)).

Definition as_int (v : value) : M Z :=
  match v with VInt z => mret z | _ => raise TypeError end.

Definition as_float (v : value) : M float :=
  match v with
  | VFloat x => mret x
  | VInt z => mret (PrimFloat.of_uint63 (Uint63.of_Z z))
  | _ => raise TypeError
  end.

Definition as_list (v : value) : M (list value) :=
  match v with VList l | VTuple l => mret l | _ => raise TypeError end.

(** ** numpy on the array store *)

Definition alloc (a : ndarray) : M value := fun s =>
  (State (names s) (arrays s ++ [a])%list (trace s), inr (VArr (length (arrays s)))).

Definition array_at (v : value) : M (nat * ndarray) := fun s =>
  match v with
  | VArr l => match arrays s !! l with
              | Some a => (s, inr (l, a))
              | None => (s, inl TypeError)
              end
  | _ => (s, inl TypeError)
  end.

Definition matrix_at (v : value) : M (nat * npy mat) :=
  '(l, a) ← array_at v;
  match a with Arr2 n m => mret (l, Npy n m) | Arr1 _ => raise IndexError end.

(** [np.load(path)] *)
Definition np_load (w : World) (path : string) : M value :=
  np ← name "np";
  n ← emit (ECall (VAttr np "load") [Pos (VStr path)]);
  match read_file w path with
  | Some (FArray a) => alloc a
  | Some FArchive => mret (VRes n)
  | None => raise (FileNotFoundError path)
  end.

(** A dimension handed to numpy: an int, or the size of a library layer. *)
Definition as_dim (w : World) (v : value) : M nat :=
  match v with
  | VInt z => if (z <? 0)%Z then raise ValueError else mret (Z.to_nat z)
  | VAttr (VRes n) "size" => mret (layer_size w n)
  | _ => raise TypeError
  end.

(** [np.zeros((rows, cols))] *)
Definition np_zeros (w : World) (rows cols : value) : M value :=
  n ← as_dim w rows; k ← as_dim w cols;
  alloc (Arr2 n (arr_zeros n k)).

(** [np.hstack((a, b))]: numpy raises ValueError unless both arrays have
    the same number of rows. *)
Definition np_hstack (a b : value) : M value :=
  '(_, ma) ← matrix_at a; '(_, mb) ← matrix_at b;
  if decide (nrows ma = nrows mb)
  then alloc (Arr2 (nrows ma) (arr_hstack (data ma) (data mb)))
  else raise ValueError.

(** [a.copy()] *)
Definition ndarray_copy (a : value) : M value :=
  '(_, x) ← array_at a; alloc x.

(** [a * c] *)
Definition ndarray_mul (a c : value) : M value :=
  '(_, y) ← array_at a; x ← as_float c;
  alloc (match y with Arr1 v => Arr1 (arr_vmul x v) | Arr2 n m => Arr2 n (arr_mul x m) end).

Definition store (l : nat) (a : ndarray) : M unit := fun s =>
  (State (names s) (<[l := a]> (arrays s)) (trace s), inr tt).

(** [a[rows, cols] *= c]: the array at [a]'s address is updated in place. *)
Definition ndarray_imul_block (a : value) (rows cols : slice) (c : value) : M unit :=
  '(l, m) ← matrix_at a; x ← as_float c;
  _ ← emit (EArrayWrite l);
  store l (Arr2 (nrows m) (arr_imul_block rows cols x (data m))).

(** [a[:, cols]] *)
Definition ndarray_columns (a : value) (cols : slice) : M value :=
  '(_, m) ← matrix_at a; alloc (Arr2 (nrows m) (arr_columns cols (data m))).

(** [a[s]] on the first axis *)
Definition ndarray_slice (a : value) (s : slice) : M value :=
  '(_, x) ← array_at a;
  alloc (match x with
         | Arr1 v => Arr1 (arr_vslice s v)
         | Arr2 n m => Arr2 (slice_hi n s - slice_lo n s) (arr_rows s m)
         end).

(** ** matplotlib's [plt.subplots] and sequence helpers *)

(** The Axes that [plt.subplots(nrows, ncols)] returned at call [n], as
    matplotlib lays them out: one Axes, a row of them, or a grid. *)
Definition subplots_axes (n nrows ncols : nat) : value :=
  let ax r c := VItem (VItem (VItem (VRes n) (VInt 1)) (VInt (Z.of_nat r))) (VInt (Z.of_nat c)) in
  match nrows, ncols with
  | 1, 1 => ax 0 0
  | 1, _ => VList (map (ax 0) (seq 0 ncols))
  | _, 1 => VList (map (fun r => ax r 0) (seq 0 nrows))
  | _, _ => VList (map (fun r => VList (map (ax r) (seq 0 ncols))) (seq 0 nrows))
  end.

(** [fig, axes = plt.subplots(nrows, ncols, **kw)] *)
Definition plt_subplots (nrows ncols : nat) (args : list arg) : M unit :=
  plt ← name "plt";
  n ← emit (ECall (VAttr plt "subplots") args);
  assign "fig" (VItem (VRes n) (VInt 0));;
  assign "axes" (subplots_axes n nrows ncols).

(** [axes.flatten()] on an array of Axes *)
Definition flatten (v : value) : M value :=
  l ← as_list v;
  mret (VList (concat (map (fun r => match r with VList xs => xs | x => [x] end) l))).

(** [v in [s1, s2, ..]] for a list of string literals *)
Definition str_in (v : value) (l : list string) : bool :=
  match v with VStr s => bool_decide (s ∈ l) | _ => false end.

(** [enumerate(l)] *)
Definition enumerate {A} (l : list A) : list (Z * A) :=
  imap (fun i x => (Z.of_nat i, x)) l.

(** ** Running a notebook *)

Definition run_cell (c : M unit) (s : state) : state * option exn :=
  match c s with
  | (s', inr _) => (s', None)
  | (s', inl e) => (s', Some e)
  end.

(** Cell after cell, top to bottom; a cell that raises leaves the kernel
    running, and the next cell is executed on the state reached. *)
Fixpoint run_cells (cs : list (M unit)) (s : state) : state * list (option exn) :=
  match cs with
  | [] => (s, [])
  | c :: cs' =>
      let '(s', r) := run_cell c s in
      let '(s'', rs) := run_cells cs' s' in
      (s'', r :: rs)
  end.

(** "Run All": execution stops at the first cell that raises. *)
Fixpoint run_all (cs : list (M unit)) (s : state) : state * option (nat * exn) :=
  match cs with
  | [] => (s, None)
  | c :: cs' =>
      match run_cell c s with
      | (s', None) =>
          let '(s'', r) := run_all cs' s' in
          (s'', (fun p => (S p.1, p.2)) <$> r)
      | (s', Some e) => (s', Some (0, e))
      end
  end.

(** ** Statements the two notebooks share *)

(** A slice whose bounds are global names, as in [a[:start_rec, ..]]. *)
Definition slice_of (lo hi : option string) : M slice :=
  a ← match lo with Some x => v ← name x; z ← as_int v; mret (Some z) | None => mret None end;
  b ← match hi with Some x => v ← name x; z ← as_int v; mret (Some z) | None => mret None end;
  mret (Slice a b).

(** [target[r0:r1, c0:c1] *= factor] *)
Definition imul_stmt (target : string) (r0 r1 c0 c1 : option string) (factor : string) : M unit :=
  a ← name target;
  rows ← slice_of r0 r1;
  cols ← slice_of c0 c1;
  c ← name factor;
  ndarray_imul_block a rows cols c.

(** The block-wise scaling of the recurrent weights:
<<
weights_rec_scaled = weights_rec.copy()
weights_rec_scaled[:start_rec, start_rec: start_inh] *= baseweight_exp_rec
weights_rec_scaled[start_rec: start_inh, start_rec: start_inh] *= baseweight_rec
weights_rec_scaled[start_rec: start_inh, start_inh:] *= baseweight_rec_inh
weights_rec_scaled[start_inh:, start_rec: start_inh] *= baseweight_inh
>> *)
Definition scale_weights_rec : M unit :=
  wr ← name "weights_rec"; c ← ndarray_copy wr; assign "weights_rec_scaled" c;;
  imul_stmt "weights_rec_scaled" None (Some "start_rec") (Some "start_rec") (Some "start_inh")
            "baseweight_exp_rec";;
  imul_stmt "weights_rec_scaled" (Some "start_rec") (Some "start_inh") (Some "start_rec") (Some "start_inh")
            "baseweight_rec";;
  imul_stmt "weights_rec_scaled" (Some "start_rec") (Some "start_inh") (Some "start_inh") None
            "baseweight_rec_inh";;
  imul_stmt "weights_rec_scaled" (Some "start_inh") None (Some "start_rec") (Some "start_inh")
            "baseweight_inh".

(** [weights_res_in_scaled = weights_res_in.copy() * factor] *)
Definition scale_weights_res_in (factor : string) : M unit :=
  wi ← name "weights_res_in"; c ← ndarray_copy wi;
  f ← name factor; r ← ndarray_mul c f;
  assign "weights_res_in_scaled" r.

(** The signal-to-spike layer:
<<
spike_enc = FFUpDown(weights=NUM_ECG_LEADS, dt=DT_ECG, thr_up=0.1, thr_down=0.1,
                     multiplex_spikes=True, name="spike_encoder")
>> *)
Definition make_spike_enc : M unit :=
  f ← name "FFUpDown";
  leads ← name "NUM_ECG_LEADS";
  dt ← name "DT_ECG";
  r ← call f [Kw "weights" leads; Kw "dt" dt; Kw "thr_up" (VFloat 0.1); Kw "thr_down" (VFloat 0.1);
              Kw "multiplex_spikes" (VBool true); Kw "name" (VStr "spike_encoder")];
  assign "spike_enc" r.

(** [kwargs_reservoir = dict(np.load("network/kwargs_reservoir.npz"))] *)
Definition load_kwargs_reservoir (w : World) : M unit :=
  _ ← name "dict";
  a ← np_load w "network/kwargs_reservoir.npz";
  assign "kwargs_reservoir" (VOp "dict" [a]).

(** [<x> = FFExpSyn(weights=np.zeros((<rows>, NUM_ANOM_CLASSES)), bias=0, dt=DT_ECG,
                    tau_syn=0.175, name="readout")], where [rows] evaluates the
    expression for the number of rows. *)
Definition make_readout (w : World) (x : string) (rows : M value) : M unit :=
  f ← name "FFExpSyn";
  _ ← name "np";
  n ← rows;
  k ← name "NUM_ANOM_CLASSES";
  z ← np_zeros w n k;
  dt ← name "DT_ECG";
  r ← call f [Kw "weights" z; Kw "bias" (VInt 0); Kw "dt" dt; Kw "tau_syn" (VFloat 0.175);
              Kw "name" (VStr "readout")];
  assign x r.

(** [<net> = Network(spike_enc, <reservoir>, <readout>, dt=DT_ECG)] *)
Definition make_network (net reservoir readout : string) : M unit :=
  f ← name "Network";
  a ← name "spike_enc"; b ← name reservoir; c ← name readout; dt ← name "DT_ECG";
  r ← call f [Pos a; Pos b; Pos c; Kw "dt" dt];
  assign net r.

(** [<x>.<m>()] *)
Definition call_method0 (x m : string) : M unit :=
  o ← name x; call_ (VAttr o m) [].

(** [d[k]] on a dict literal. *)
Definition dict_get (k : string) (kvs : list (string * value)) : option value :=
  snd <$> find (fun p => bool_decide (p.1 = k)) kvs.

(** [rectangular_neuron_arrangement( **params)]: the keyword arguments are
    read off the dict, and the ids are the library's. *)
Definition call_rectangle (w : World) (f params : value) : M value :=
  match params with
  | VDict kvs =>
      a ← of_option TypeError (dict_get "first_neuron" kvs) ≫= as_int;
      b ← of_option TypeError (dict_get "num_neurons" kvs) ≫= as_int;
      c ← of_option TypeError (dict_get "width" kvs) ≫= as_int;
      _ ← emit (ECall f [StarStar params]);
      mret (VInts (rectangle w a b c))
  | _ => raise TypeError
  end.

Definition as_ints (v : value) : M (list Z) :=
  match v with VInts l => mret l | _ => raise TypeError end.

(** The neuron arrangement loop:
<<
neuron_ids = []
for rectangle_params in rectangular_arrangement:
    neuron_ids += list(rectangular_neuron_arrangement( **rectangle_params))
>> *)
Definition collect_neuron_ids (w : World) : M unit :=
  assign "neuron_ids" (VInts []);;
  ra ← name "rectangular_arrangement"; rects ← as_list ra;
  for_each rects (fun params =>
    assign "rectangle_params" params;;
    ids ← name "neuron_ids"; old ← as_ints ids;
    _ ← name "list";
    f ← name "rectangular_neuron_arrangement";
    p ← name "rectangle_params";
    r ← call_rectangle w f p; new ← as_ints r;
    assign "neuron_ids" (VInts (old ++ new)%list)).

(** The arguments of [plt.subplots_adjust]. *)
Definition adjust (top bottom left right hspace wspace : float) : list arg :=
  [Kw "top" (VFloat top); Kw "bottom" (VFloat bottom); Kw "left" (VFloat left);
   Kw "right" (VFloat right); Kw "hspace" (VFloat hspace); Kw "wspace" (VFloat wspace)].

(** [<any> = TSContinuous(<t>.times, np.any(<t>.samples, axis=1))] *)
Definition make_any_target (any t : string) : M unit :=
  f ← name "TSContinuous";
  t1 ← name t;
  _ ← name "np";
  t2 ← name t;
  r ← call f [Pos (VAttr t1 "times"); Pos (VOp "numpy.any" [VAttr t2 "samples"; VInt 1])];
  assign any r.

(** One round of the per-anomaly plotting loops: the curve [out] (under
    [abs(..)] when [absolute]), the any-anomaly curve, the target, the title. *)
Definition plot_anomaly (out any tgt : string) (absolute : bool) (any_args : list arg) : M unit :=
  (if absolute then
     _ ← name "abs"; o ← name out; i ← name "i_anom";
     c ← call (VAttr o "clip") [Kw "channels" i];
     ax ← name "ax"; call_ (VAttr (VOp "abs" [c]) "plot") [Kw "target" ax]
   else
     o ← name out; i ← name "i_anom";
     c ← call (VAttr o "clip") [Kw "channels" i];
     ax ← name "ax"; call_ (VAttr c "plot") [Kw "target" ax]);;
  a ← name any; ax ← name "ax"; call_ (VAttr a "plot") (Kw "target" ax :: any_args);;
  t ← name tgt; i ← name "i_anom";
  c ← call (VAttr t "clip") [Kw "channels" i];
  ax ← name "ax"; call_ (VAttr c "plot") [Kw "target" ax];;
  ax ← name "ax"; l ← name "lbl"; call_ (VAttr ax "set_title") [Pos l].

(** [for i_anom, (ax, lbl) in enumerate(zip(<axes>, <lbls>)): <body>] *)
Definition for_anomalies (axes lbls : list value) (body : M unit) : M unit :=
  for_each (enumerate (zip axes lbls)) (fun '(i, (ax, lbl)) =>
    assign "i_anom" (VInt i);; assign "ax" ax;; assign "lbl" lbl;; body).
End Semantics.

(** ** The workshop notebook, "Hardware demonstration: ECG anomaly detection" *)

Module Workshop.
Section Cells.
Context {vec mat : Type} `{!Arrays vec mat} (w : World vec mat).

Local Abbreviation M := (M vec mat).
Local Abbreviation state := (state vec mat).

(** <<
import importlib
if importlib.util.find_spec('ipympl') is None:
!pip install ipympl
>> *)
Definition cell_ipympl : M unit :=
  import_as "importlib" "importlib";;
  il ← name "importlib";
  n ← emit (ECall (VAttr (VAttr il "util") "find_spec") [Pos (VStr "ipympl")]);
  if ipympl_installed w then mret tt else shell "pip install ipympl".

(** <<
%matplotlib widget
import warnings
warnings.filterwarnings('ignore')
from scripts.plot_example_beats import plot_examples, labels
plot_examples()
>> *)
Definition cell_examples : M unit :=
  magic "matplotlib widget";;
  import_as "warnings" "warnings";;
  wn ← name "warnings"; call_ (VAttr wn "filterwarnings") [Pos (VStr "ignore")];;
  from_import "scripts.plot_example_beats" ["plot_examples"];;
  assign "labels" (VList (VStr <$> labels w));;
  f ← name "plot_examples"; call_ f [].

(** <<
from scripts.dataloader import ECGDataLoader
data_loader = ECGDataLoader()
>> *)
Definition cell_data_loader : M unit :=
  from_import "scripts.dataloader" ["ECGDataLoader"];;
  f ← name "ECGDataLoader"; r ← call f []; assign "data_loader" r.

(** <<
from rockpool.layers import FFUpDown
DT_ECG = 0.002778
NUM_ECG_LEADS = 2
NUM_ANOM_CLASSES = 4
spike_enc = FFUpDown(..)
>> *)
Definition cell_spike_enc : M unit :=
  from_import "rockpool.layers" ["FFUpDown"];;
  assign "DT_ECG" (VFloat 0.002778);;
  assign "NUM_ECG_LEADS" (VInt 2);;
  assign "NUM_ANOM_CLASSES" (VInt 4);;
  make_spike_enc.

(** <<
import numpy as np
from rockpool.layers import RecIAFSpkInNest
weights_res_in = np.load("network/weights_res_in.npy")
weights_rec = np.load("network/weights_rec.npy")
start_rec = 128
start_inh = 128 + 512
baseweight_inp = 5e-4
baseweight_exp_rec = 8e-5
baseweight_rec = 8e-5  # 1.75e-4
baseweight_rec_inh = 8e-5
baseweight_inh = 1e-4
weights_res_in_scaled = weights_res_in.copy() * baseweight_inp
weights_rec_scaled = weights_rec.copy()
weights_rec_scaled[..] *= ..          (four blocks)
kwargs_reservoir = dict(np.load("network/kwargs_reservoir.npz"))
reservoir = RecIAFSpkInNest(weights_in=weights_res_in_scaled, weights_rec=weights_rec_scaled,
                          name="reservoir", **kwargs_reservoir)
>> *)
Definition cell_reservoir : M unit :=
  import_as "numpy" "np";;
  from_import "rockpool.layers" ["RecIAFSpkInNest"];;
  a ← np_load w "network/weights_res_in.npy"; assign "weights_res_in" a;;
  b ← np_load w "network/weights_rec.npy"; assign "weights_rec" b;;
  assign "start_rec" (VInt 128);;
  assign "start_inh" (VInt (128 + 512));;
  assign "baseweight_inp" (VFloat 5e-4);;
  assign "baseweight_exp_rec" (VFloat 8e-5);;
  assign "baseweight_rec" (VFloat 8e-5);;
  assign "baseweight_rec_inh" (VFloat 8e-5);;
  assign "baseweight_inh" (VFloat 1e-4);;
  scale_weights_res_in "baseweight_inp";;
  scale_weights_rec;;
  load_kwargs_reservoir w;;
  f ← name "RecIAFSpkInNest";
  wi ← name "weights_res_in_scaled";
  wr ← name "weights_rec_scaled";
  kw ← name "kwargs_reservoir";
  r ← call f [Kw "weights_in" wi; Kw "weights_rec" wr; Kw "name" (VStr "reservoir"); StarStar kw];
  assign "reservoir" r.

(** <<
from rockpool.layers import FFExpSyn
readout = FFExpSyn(weights=np.zeros((reservoir.size, NUM_ANOM_CLASSES)), bias=0, dt=DT_ECG,
                 tau_syn=0.175, name="readout")
>> *)
Definition cell_readout : M unit :=
  from_import "rockpool.layers" ["FFExpSyn"];;
  make_readout w "readout" (r ← name "reservoir"; mret (VAttr r "size")).

(** <<
from rockpool import Network
sw_net = Network(spike_enc, reservoir, readout, dt=DT_ECG)
>> *)
Definition cell_sw_net : M unit :=
  from_import "rockpool" ["Network"];;
  make_network "sw_net" "reservoir" "readout".

(** The three training cells hold comments only (the calls to
    [train_rr], the test on training data and its plot). *)
Definition cell_commented_out : M unit := mret tt.

(** <<
readout.weights = np.load("network/readout_weights.npy")
readout.bias = np.load("network/readout_bias.npy")
>> *)
Definition cell_load_readout : M unit :=
  a ← np_load w "network/readout_weights.npy"; r ← name "readout"; setattr r "weights" a;;
  b ← np_load w "network/readout_bias.npy"; r ← name "readout"; setattr r "bias" b.

(** <<
num_beats = 100
ecg_data = data_loader.get_single_batch(num_beats=num_beats)
net_data = sw_net.evolve(ecg_data.input)
output = net_data["readout"]
sw_net.reset_all()
>> *)
Definition cell_sw_inference : M unit :=
  assign "num_beats" (VInt 100);;
  dl ← name "data_loader"; nb ← name "num_beats";
  d ← call (VAttr dl "get_single_batch") [Kw "num_beats" nb]; assign "ecg_data" d;;
  net ← name "sw_net"; e ← name "ecg_data";
  nd ← call (VAttr net "evolve") [Pos (VAttr e "input")]; assign "net_data" nd;;
  nd ← name "net_data"; assign "output" (VItem nd (VStr "readout"));;
  call_method0 "sw_net" "reset_all".

(** <<
%matplotlib widget
from matplotlib import pyplot as plt
from rockpool import TSContinuous
target = ecg_data.target.copy()
any_target = TSContinuous(target.times, np.any(target.samples, axis=1))
fig, axes = plt.subplots(2, 2, figsize=(8, 6))
plt.subplots_adjust(top=0.95, bottom=0.05, left=0.05, right=0.95, hspace=0.2, wspace=0.2)
for i_anom, (ax, lbl) in enumerate(zip(axes.flatten(), labels[1:])):
  output.clip(channels=i_anom).plot(target=ax)
  any_target.plot(target=ax, color="gray", alpha=0.5)
  target.clip(channels=i_anom).plot(target=ax)
  ax.set_title(lbl)
>> *)
Definition cell_sw_plot : M unit :=
  magic "matplotlib widget";;
  _ ← emit (EImport "matplotlib"); assign "plt" (VModule "matplotlib.pyplot");;
  from_import "rockpool" ["TSContinuous"];;
  e ← name "ecg_data"; t ← call (VAttr (VAttr e "target") "copy") []; assign "target" t;;
  make_any_target "any_target" "target";;
  plt_subplots 2 2 [Pos (VInt 2); Pos (VInt 2); Kw "figsize" (VTuple [VInt 8; VInt 6])];;
  plt ← name "plt"; call_ (VAttr plt "subplots_adjust") (adjust 0.95 0.05 0.05 0.95 0.2 0.2);;
  _ ← name "enumerate"; _ ← name "zip";
  ax ← name "axes"; fl ← flatten ax; axs ← as_list fl;
  lb ← name "labels"; lbs ← as_list lb;
  for_anomalies axs (get_slice (Slice (Some 1%Z) None) lbs)
    (plot_anomaly "output" "any_target" "target" false
                  [Kw "color" (VStr "gray"); Kw "alpha" (VFloat 0.5)]).

(** <<
from rockpool.devices import rectangular_neuron_arrangement
rectangular_arrangement = [
  {"first_neuron": 4, "num_neurons": 128, "width": 8},
  {"first_neuron": 256, "num_neurons": 256, "width": 16},
  {"first_neuron": 768, "num_neurons": 512 - 256, "width": 16},
  {"first_neuron": 516, "num_neurons": 128, "width": 8},
]
neuron_ids = []
for rectangle_params in rectangular_arrangement: ..
virtual_neuron_ids = [1, 2, 3, 12]
>> *)
Definition rectangle_params (first num width : Z) : value :=
  VDict [("first_neuron", VInt first); ("num_neurons", VInt num); ("width", VInt width)].

Definition cell_arrangement : M unit :=
  from_import "rockpool.devices" ["rectangular_neuron_arrangement"];;
  assign "rectangular_arrangement"
    (VList [rectangle_params 4 128 8; rectangle_params 256 256 16;
            rectangle_params 768 (512 - 256) 16; rectangle_params 516 128 8]);;
  collect_neuron_ids w;;
  assign "virtual_neuron_ids" (VInts [1; 2; 3; 12]%Z).

(** <<
from rockpool.devices import DynapseControlExtd
controller = DynapseControlExtd()
bias_path = "network/biases.py"
controller.load_biases(bias_path)
silence_hot_neurons_dur = 5
hot_neurons = controller.silence_hot_neurons(neuron_ids, silence_hot_neurons_dur)
>> *)
Definition cell_controller : M unit :=
  from_import "rockpool.devices" ["DynapseControlExtd"];;
  f ← name "DynapseControlExtd"; c ← call f []; assign "controller" c;;
  assign "bias_path" (VStr "network/biases.py");;
  c ← name "controller"; p ← name "bias_path"; call_ (VAttr c "load_biases") [Pos p];;
  assign "silence_hot_neurons_dur" (VInt 5);;
  c ← name "controller"; ids ← name "neuron_ids"; d ← name "silence_hot_neurons_dur";
  h ← call (VAttr c "silence_hot_neurons") [Pos ids; Pos d];
  assign "hot_neurons" h.

(** <<
from rockpool.layers import RecDynapSE
dt_hardware = 0.1 * reservoir.dt
reservoir_hw = RecDynapSE(weights_in=weights_res_in, weights_rec=weights_rec,
  neuron_ids=neuron_ids, virtual_neuron_ids=virtual_neuron_ids, dt=dt_hardware,
  controller=controller, skip_weights=True, name="hardware")
>> *)
Definition cell_reservoir_hw : M unit :=
  from_import "rockpool.layers" ["RecDynapSE"];;
  r ← name "reservoir"; assign "dt_hardware" (VOp "mul" [VFloat 0.1; VAttr r "dt"]);;
  f ← name "RecDynapSE";
  wi ← name "weights_res_in"; wr ← name "weights_rec";
  ids ← name "neuron_ids"; vids ← name "virtual_neuron_ids";
  dt ← name "dt_hardware"; c ← name "controller";
  r ← call f [Kw "weights_in" wi; Kw "weights_rec" wr; Kw "neuron_ids" ids;
              Kw "virtual_neuron_ids" vids; Kw "dt" dt; Kw "controller" c;
              Kw "skip_weights" (VBool true); Kw "name" (VStr "hardware")];
  assign "reservoir_hw" r.

(** <<
readout_hw = FFExpSyn(weights=np.zeros((reservoir_hw.size, NUM_ANOM_CLASSES)), bias=0,
                    dt=DT_ECG, tau_syn=0.175, name="readout")
>> *)
Definition cell_readout_hw : M unit :=
  make_readout w "readout_hw" (r ← name "reservoir_hw"; mret (VAttr r "size")).

(** <<
sw_net.reset_all()
hw_net = Network(spike_enc, reservoir_hw, readout_hw, dt=DT_ECG)
>> *)
Definition cell_hw_net : M unit :=
  call_method0 "sw_net" "reset_all";;
  make_network "hw_net" "reservoir_hw" "readout_hw".

(** <<
readout_hw.weights = np.load("network/readout_weights_hw.npy")[:, :4]
readout_hw.bias = np.load("network/readout_bias_hw.npy")[:4]
>> *)
Definition cell_load_readout_hw : M unit :=
  a ← np_load w "network/readout_weights_hw.npy";
  a4 ← ndarray_columns a (Slice None (Some 4%Z));
  r ← name "readout_hw"; setattr r "weights" a4;;
  b ← np_load w "network/readout_bias_hw.npy";
  b4 ← ndarray_slice b (Slice None (Some 4%Z));
  r ← name "readout_hw"; setattr r "bias" b4.

(** <<
num_beats = 100
ecg_data_hw = data_loader.get_single_batch(num_beats=num_beats)
ecg_data_hw.input.plot()
net_data_hw = hw_net.evolve(ecg_data_hw.input)
hw_net.reset_all()
output_hw = net_data_hw["readout"]
print("Ready")
>> *)
Definition cell_hw_inference : M unit :=
  assign "num_beats" (VInt 100);;
  dl ← name "data_loader"; nb ← name "num_beats";
  d ← call (VAttr dl "get_single_batch") [Kw "num_beats" nb]; assign "ecg_data_hw" d;;
  e ← name "ecg_data_hw"; call_ (VAttr (VAttr e "input") "plot") [];;
  net ← name "hw_net"; e ← name "ecg_data_hw";
  nd ← call (VAttr net "evolve") [Pos (VAttr e "input")]; assign "net_data_hw" nd;;
  call_method0 "hw_net" "reset_all";;
  nd ← name "net_data_hw"; assign "output_hw" (VItem nd (VStr "readout"));;
  p ← name "print"; call_ p [Pos (VStr "Ready")].

(** <<
%matplotlib widget
fig, axes = plt.subplots(4, sharex=True, figsize=(8,40))
plt.subplots_adjust(top=0.95, bottom=0.05, left=0.15, right=0.95, hspace=0.5, wspace=0.2)
t_start = 5
t_stop = 7
net_data_hw["readout"] = abs(net_data_hw["readout"])
for layername, ax in zip(["external", "spike_encoder", "hardware", "readout"], axes):
  if layername in ["spike_encoder", "hardware"]:
      net_data_hw[layername].clip(t_start=5, t_stop=7).plot(target=ax, s=2)
  else:
      net_data_hw[layername].clip(t_start=5, t_stop=7).plot(target=ax)
  ax.set_title(layername)
ax.set_xlabel("Time [s]")
target_hw = ecg_data_hw.target.copy()
any_target_hw = TSContinuous(target_hw.times, np.any(target_hw.samples, axis=1))
any_target_hw.clip(t_start=t_start, t_stop=t_stop).plot(target=ax, color='k', lw=3, ls='--')
>> *)
Definition cell_hw_stages_plot : M unit :=
  magic "matplotlib widget";;
  plt_subplots 4 1 [Pos (VInt 4); Kw "sharex" (VBool true); Kw "figsize" (VTuple [VInt 8; VInt 40])];;
  plt ← name "plt"; call_ (VAttr plt "subplots_adjust") (adjust 0.95 0.05 0.15 0.95 0.5 0.2);;
  assign "t_start" (VInt 5);;
  assign "t_stop" (VInt 7);;
  _ ← name "abs"; nd ← name "net_data_hw";
  nd' ← name "net_data_hw";
  setitem nd' (VStr "readout") (VOp "abs" [VItem nd (VStr "readout")]);;
  _ ← name "zip"; ax ← name "axes"; axs ← as_list ax;
  for_each (zip ["external"; "spike_encoder"; "hardware"; "readout"] axs) (fun '(layername, ax) =>
    assign "layername" (VStr layername);; assign "ax" ax;;
    ln ← name "layername";
    (if str_in ln ["spike_encoder"; "hardware"] then
       nd ← name "net_data_hw"; ln ← name "layername";
       c ← call (VAttr (VItem nd ln) "clip") [Kw "t_start" (VInt 5); Kw "t_stop" (VInt 7)];
       ax ← name "ax"; call_ (VAttr c "plot") [Kw "target" ax; Kw "s" (VInt 2)]
     else
       nd ← name "net_data_hw"; ln ← name "layername";
       c ← call (VAttr (VItem nd ln) "clip") [Kw "t_start" (VInt 5); Kw "t_stop" (VInt 7)];
       ax ← name "ax"; call_ (VAttr c "plot") [Kw "target" ax]);;
    ax ← name "ax"; ln ← name "layername"; call_ (VAttr ax "set_title") [Pos ln]);;
  ax ← name "ax"; call_ (VAttr ax "set_xlabel") [Pos (VStr "Time [s]")];;
  e ← name "ecg_data_hw"; t ← call (VAttr (VAttr e "target") "copy") []; assign "target_hw" t;;
  make_any_target "any_target_hw" "target_hw";;
  a ← name "any_target_hw"; t0 ← name "t_start"; t1 ← name "t_stop";
  c ← call (VAttr a "clip") [Kw "t_start" t0; Kw "t_stop" t1];
  ax ← name "ax";
  call_ (VAttr c "plot") [Kw "target" ax; Kw "color" (VStr "k"); Kw "lw" (VInt 3); Kw "ls" (VStr "--")].

(** <<
%matplotlib widget
fig, axes = plt.subplots(2, 2, figsize=(8, 6))
plt.subplots_adjust(top=0.95, bottom=0.05, left=0.1, right=0.95, hspace=0.5, wspace=0.2)
for i_anom, (ax, lbl) in enumerate(zip(axes.flatten(), labels[1:])):
  abs(output_hw.clip(channels=i_anom)).plot(target=ax)
  any_target_hw.plot(target=ax, color="limegreen")
  target_hw.clip(channels=i_anom).plot(target=ax)
  ax.set_title(lbl)
>> *)
Definition cell_hw_plot : M unit :=
  magic "matplotlib widget";;
  plt_subplots 2 2 [Pos (VInt 2); Pos (VInt 2); Kw "figsize" (VTuple [VInt 8; VInt 6])];;
  plt ← name "plt"; call_ (VAttr plt "subplots_adjust") (adjust 0.95 0.05 0.1 0.95 0.5 0.2);;
  _ ← name "enumerate"; _ ← name "zip";
  ax ← name "axes"; fl ← flatten ax; axs ← as_list fl;
  lb ← name "labels"; lbs ← as_list lb;
  for_anomalies axs (get_slice (Slice (Some 1%Z) None) lbs)
    (plot_anomaly "output_hw" "any_target_hw" "target_hw" true [Kw "color" (VStr "limegreen")]).

(** [output_hw], the last cell: the kernel shows the value. *)
Definition cell_output_hw : M unit :=
  v ← name "output_hw"; display v.

(** The code cells, top to bottom. *)
Definition cells : list (M unit) :=
  [ cell_ipympl; cell_examples; cell_data_loader; cell_spike_enc; cell_reservoir;
    cell_readout; cell_sw_net;
    cell_commented_out; cell_commented_out; cell_commented_out;
    cell_load_readout; cell_sw_inference; cell_sw_plot;
    cell_arrangement; cell_controller; cell_reservoir_hw; cell_readout_hw; cell_hw_net;
    cell_commented_out;
    cell_load_readout_hw; cell_hw_inference; cell_hw_stages_plot; cell_hw_plot;
    cell_output_hw ].

Definition run : state * list (option exn) := run_cells cells initial.
End Cells.
End Workshop.

(** ** "ECG Demo Notebook.ipynb" *)

Module Demo.
Section Cells.
Context {vec mat : Type} `{!Arrays vec mat} (w : World vec mat).

Local Abbreviation M := (M vec mat).
Local Abbreviation state := (state vec mat).

(** <<
import numpy as np
from matplotlib import pyplot as plt
DT_ECG = 0.002778
NUM_ECG_LEADS = 2
NUM_ANOM_CLASSES = 5
MAX_FANIN = 64
>> *)
Definition cell_constants : M unit :=
  import_as "numpy" "np";;
  _ ← emit (EImport "matplotlib"); assign "plt" (VModule "matplotlib.pyplot");;
  assign "DT_ECG" (VFloat 0.002778);;
  assign "NUM_ECG_LEADS" (VInt 2);;
  assign "NUM_ANOM_CLASSES" (VInt 5);;
  assign "MAX_FANIN" (VInt 64).

(** <<
%matplotlib widget
from scripts.plot_example_beats import plot_examples, labels
plot_examples()
>> *)
Definition cell_examples : M unit :=
  magic "matplotlib widget";;
  from_import "scripts.plot_example_beats" ["plot_examples"];;
  assign "labels" (VList (VStr <$> labels w));;
  f ← name "plot_examples"; call_ f [].

(** The data loader cell has the text of the workshop's. *)
Definition cell_data_loader : M unit := Workshop.cell_data_loader.

(** <<
from rockpool.layers import FFUpDown
spike_enc = FFUpDown(..)
>> *)
Definition cell_spike_enc : M unit :=
  from_import "rockpool.layers" ["FFUpDown"];;
  make_spike_enc.

(** <<
%matplotlib widget
num_ch_in = 2 * NUM_ECG_LEADS
size_expand = 128
baseweight_expand = 5e-4
weights_expand = np.load("network/weights_expand.npy")
plt.imshow(weights_expand, aspect="auto")
plt.title("Weights of dimensionality expansion layer", fontsize=18)
>> *)
Definition cell_expand : M unit :=
  magic "matplotlib widget";;
  l ← name "NUM_ECG_LEADS"; n ← as_int l; assign "num_ch_in" (VInt (2 * n));;
  assign "size_expand" (VInt 128);;
  assign "baseweight_expand" (VFloat 5e-4);;
  a ← np_load w "network/weights_expand.npy"; assign "weights_expand" a;;
  plt ← name "plt"; we ← name "weights_expand";
  call_ (VAttr plt "imshow") [Pos we; Kw "aspect" (VStr "auto")];;
  plt ← name "plt";
  call_ (VAttr plt "title") [Pos (VStr "Weights of dimensionality expansion layer");
                             Kw "fontsize" (VInt 18)].

(** <<
from rockpool.weights import partitioned_2d_reservoir
size_rec = 512
size_inh = 128
size_reservoir = size_rec + size_inh
num_exp_rec = 16
num_inh = 16
num_rec_inh = 64
num_rec_short = 24
num_rec_long = 8
baseweight_exp_rec = 8e-5
baseweight_rec = 8e-5  # 1.75e-4
baseweight_rec_inh = 8e-5
baseweight_inh = 1e-4
weights_res_in = np.hstack((weights_expand, np.zeros((num_ch_in, size_reservoir))))
weights_rec = np.load("network/weights_rec.npy")
weights_res_in_scaled = weights_res_in.copy() * baseweight_expand
start_rec = size_expand
start_inh = size_expand + size_rec
weights_rec_scaled = weights_rec.copy()
weights_rec_scaled[..] *= ..          (four blocks)
>> *)
Definition cell_weights : M unit :=
  from_import "rockpool.weights" ["partitioned_2d_reservoir"];;
  assign "size_rec" (VInt 512);;
  assign "size_inh" (VInt 128);;
  a ← name "size_rec" ≫= as_int; b ← name "size_inh" ≫= as_int;
  assign "size_reservoir" (VInt (a + b));;
  assign "num_exp_rec" (VInt 16);;
  assign "num_inh" (VInt 16);;
  assign "num_rec_inh" (VInt 64);;
  assign "num_rec_short" (VInt 24);;
  assign "num_rec_long" (VInt 8);;
  assign "baseweight_exp_rec" (VFloat 8e-5);;
  assign "baseweight_rec" (VFloat 8e-5);;
  assign "baseweight_rec_inh" (VFloat 8e-5);;
  assign "baseweight_inh" (VFloat 1e-4);;
  _ ← name "np"; we ← name "weights_expand"; _ ← name "np";
  n ← name "num_ch_in"; k ← name "size_reservoir";
  z ← np_zeros w n k; h ← np_hstack we z; assign "weights_res_in" h;;
  r ← np_load w "network/weights_rec.npy"; assign "weights_rec" r;;
  scale_weights_res_in "baseweight_expand";;
  se ← name "size_expand"; assign "start_rec" se;;
  a ← name "size_expand" ≫= as_int; b ← name "size_rec" ≫= as_int;
  assign "start_inh" (VInt (a + b));;
  scale_weights_rec.

(** <<
%matplotlib widget
plt.imshow(<weights>, aspect="auto")
plt.title(<title>)
plt.xlabel("Postsynaptic neurons")
plt.ylabel("Presynaptic neurons")
>> *)
Definition show_weights (weights title : string) : M unit :=
  magic "matplotlib widget";;
  plt ← name "plt"; a ← name weights;
  call_ (VAttr plt "imshow") [Pos a; Kw "aspect" (VStr "auto")];;
  plt ← name "plt"; call_ (VAttr plt "title") [Pos (VStr title)];;
  plt ← name "plt"; call_ (VAttr plt "xlabel") [Pos (VStr "Postsynaptic neurons")];;
  plt ← name "plt"; call_ (VAttr plt "ylabel") [Pos (VStr "Presynaptic neurons")].

Definition cell_show_res_in : M unit :=
  show_weights "weights_res_in_scaled" "Connections from expansion layer to reservoir".

Definition cell_show_rec : M unit :=
  show_weights "weights_rec_scaled" "Recurrent reservoir connections".

(** <<
from rockpool.layers import RecIAFSpkInNest
kwargs_reservoir = dict(np.load("network/kwargs_reservoir.npz"))
reservoir = RecIAFSpkInNest(weights_in=weights_res_in, weights_rec=weights_rec,
                          name="reservoir", **kwargs_reservoir)
>> *)
Definition cell_reservoir : M unit :=
  from_import "rockpool.layers" ["RecIAFSpkInNest"];;
  load_kwargs_reservoir w;;
  f ← name "RecIAFSpkInNest";
  wi ← name "weights_res_in";
  wr ← name "weights_rec";
  kw ← name "kwargs_reservoir";
  r ← call f [Kw "weights_in" wi; Kw "weights_rec" wr; Kw "name" (VStr "reservoir"); StarStar kw];
  assign "reservoir" r.

(** <<
from rockpool.layers import FFExpSyn
readout = FFExpSyn(weights=np.zeros((size_full, NUM_ANOM_CLASSES)), bias=0, dt=DT_ECG,
                 tau_syn=0.175, name="readout")
>> *)
Definition cell_readout : M unit :=
  from_import "rockpool.layers" ["FFExpSyn"];;
  make_readout w "readout" (name "size_full").

(** The network cell, the three commented-out training cells, the cell
    that loads the readout parameters and the inference cell have the
    text of the workshop's. *)
Definition cell_sw_net : M unit := Workshop.cell_sw_net.
Definition cell_commented_out : M unit := Workshop.cell_commented_out.
Definition cell_load_readout : M unit := Workshop.cell_load_readout w.
Definition cell_sw_inference : M unit := Workshop.cell_sw_inference.

(** <<
%matplotlib widget
target = ecg_data.target
any_target = TSContinuous(target.times, np.any(target.samples, axis=1))
fig, axes = plt.subplots(3, 2, figsize=(8, 10))
axes[-1, -1].set_visible(False)                    (software plot only)
plt.subplots_adjust(top=0.98, bottom=0.05, left=0.15, right=0.95, hspace=0.5, wspace=0.2)
for i_anom, (ax, lbl) in enumerate(zip(axes.flatten()[:-1], labels)):
  output.clip(channels=i_anom).plot(target=ax)
  any_target.plot(target=ax, color="gray", alpha=0.5)
  target.clip(channels=i_anom).plot(target=ax)
  ax.set_title(lbl)
>> *)
Definition plot_cell (hide_last : bool) : M unit :=
  magic "matplotlib widget";;
  e ← name "ecg_data"; assign "target" (VAttr e "target");;
  make_any_target "any_target" "target";;
  plt_subplots 3 2 [Pos (VInt 3); Pos (VInt 2); Kw "figsize" (VTuple [VInt 8; VInt 10])];;
  (if hide_last then
     ax ← name "axes"; rows ← as_list ax;
     row ← of_option IndexError (last rows) ≫= as_list;
     a ← of_option IndexError (last row);
     call_ (VAttr a "set_visible") [Pos (VBool false)]
   else mret tt);;
  plt ← name "plt"; call_ (VAttr plt "subplots_adjust") (adjust 0.98 0.05 0.15 0.95 0.5 0.2);;
  _ ← name "enumerate"; _ ← name "zip";
  ax ← name "axes"; fl ← flatten ax; axs ← as_list fl;
  lb ← name "labels"; lbs ← as_list lb;
  for_anomalies (get_slice (Slice None (Some (-1)%Z)) axs) lbs
    (plot_anomaly "output" "any_target" "target" false
                  [Kw "color" (VStr "gray"); Kw "alpha" (VFloat 0.5)]).

Definition cell_sw_plot : M unit := plot_cell true.

(** <<
from rockpool.devices import rectangular_neuron_arrangement, DynapseControlExtd
from rockpool.layers import RecDynapSE
bias_path = "network/biases.py"
silence_hot_neurons_dur = 5
>> *)
Definition cell_hw_imports : M unit :=
  from_import "rockpool.devices" ["rectangular_neuron_arrangement"; "DynapseControlExtd"];;
  from_import "rockpool.layers" ["RecDynapSE"];;
  assign "bias_path" (VStr "network/biases.py");;
  assign "silence_hot_neurons_dur" (VInt 5).

(** <<
rectangular_arrangement = [
  {"first_neuron": 4, "num_neurons": size_in, "width": 8},
  {"first_neuron": 256, "num_neurons": 256, "width": 16},
  {"first_neuron": 768, "num_neurons": size_rec - 256, "width": 16},
  {"first_neuron": 516, "num_neurons": size_inhib, "width": 8},
]
neuron_ids = []
for rectangle_params in rectangular_arrangement: ..
virtual_neuron_ids = [1, 2, 3, 12]
>> *)
Definition rectangle_params (first : Z) (num : value) (width : Z) : value :=
  VDict [("first_neuron", VInt first); ("num_neurons", num); ("width", VInt width)].

Definition cell_arrangement : M unit :=
  n1 ← name "size_in";
  sr ← name "size_rec" ≫= as_int;
  n4 ← name "size_inhib";
  assign "rectangular_arrangement"
    (VList [rectangle_params 4 n1 8; rectangle_params 256 (VInt 256) 16;
            rectangle_params 768 (VInt (sr - 256)) 16; rectangle_params 516 n4 8]);;
  collect_neuron_ids w;;
  assign "virtual_neuron_ids" (VInts [1; 2; 3; 12]%Z).

(** <<
controller = DynapseControlExtd(fpga_isibase=reservoir.dt)
controller.load_biases(bias_path)
hot_neurons = controller.silence_hot_neurons(neuron_ids, silence_hot_neurons_dur)
>> *)
Definition cell_controller : M unit :=
  f ← name "DynapseControlExtd"; r ← name "reservoir";
  c ← call f [Kw "fpga_isibase" (VAttr r "dt")]; assign "controller" c;;
  c ← name "controller"; p ← name "bias_path"; call_ (VAttr c "load_biases") [Pos p];;
  c ← name "controller"; ids ← name "neuron_ids"; d ← name "silence_hot_neurons_dur";
  h ← call (VAttr c "silence_hot_neurons") [Pos ids; Pos d];
  assign "hot_neurons" h.

(** <<
hw_layer = RecDynapSE(weights_in=weights_res_in, weights_rec=weights_rec,
  neuron_ids=neuron_ids, virtual_neuron_ids=virtual_neuron_ids, dt=reservoir.dt,
  controller=controller, clearcores_list=[0,1,2,3], name="hardware")
>> *)
Definition cell_hw_layer : M unit :=
  f ← name "RecDynapSE";
  wi ← name "weights_res_in"; wr ← name "weights_rec";
  ids ← name "neuron_ids"; vids ← name "virtual_neuron_ids";
  r ← name "reservoir"; c ← name "controller";
  l ← call f [Kw "weights_in" wi; Kw "weights_rec" wr; Kw "neuron_ids" ids;
              Kw "virtual_neuron_ids" vids; Kw "dt" (VAttr r "dt"); Kw "controller" c;
              Kw "clearcores_list" (VInts [0; 1; 2; 3]%Z);
              Kw "name" (VStr "hardware")];
  assign "hw_layer" l.

(** <<
readout_hw = FFExpSyn(weights=np.zeros((size_full, NUM_ANOM_CLASSES)), bias=0, dt=DT_ECG,
                    tau_syn=0.175, name="readout")
>> *)
Definition cell_readout_hw : M unit :=
  make_readout w "readout_hw" (name "size_full").

(** <<
sw_net.reset_all()
hw_net = Network(spike_enc, hw_layer, readout_hw, dt=DT_ECG)
>> *)
Definition cell_hw_net : M unit :=
  call_method0 "sw_net" "reset_all";;
  make_network "hw_net" "hw_layer" "readout_hw".

(** <<
readout_hw.weights = np.load("network/readout_weights_hw.py")
readout_hw.bias = np.load("network/readout_bias_hw.py")
>> *)
Definition cell_load_readout_hw : M unit :=
  a ← np_load w "network/readout_weights_hw.py"; r ← name "readout_hw"; setattr r "weights" a;;
  b ← np_load w "network/readout_bias_hw.py"; r ← name "readout_hw"; setattr r "bias" b.

(** <<
num_beats = 100
ecg_data = data_loader.get_single_batch(num_beats=num_beats)
net_data = hw_net.evolve(ecg_data.input)
output = net_data["readout"]
>> *)
Definition cell_hw_inference : M unit :=
  assign "num_beats" (VInt 100);;
  dl ← name "data_loader"; nb ← name "num_beats";
  d ← call (VAttr dl "get_single_batch") [Kw "num_beats" nb]; assign "ecg_data" d;;
  net ← name "hw_net"; e ← name "ecg_data";
  nd ← call (VAttr net "evolve") [Pos (VAttr e "input")]; assign "net_data" nd;;
  nd ← name "net_data"; assign "output" (VItem nd (VStr "readout")).

Definition cell_hw_plot : M unit := plot_cell false.

(** The code cells, top to bottom. *)
Definition cells : list (M unit) :=
  [ cell_constants; cell_examples; cell_data_loader; cell_spike_enc; cell_expand;
    cell_weights; cell_show_res_in; cell_show_rec; cell_reservoir;
    cell_readout; cell_sw_net;
    cell_commented_out; cell_commented_out; cell_commented_out;
    cell_load_readout; cell_sw_inference; cell_sw_plot;
    cell_hw_imports; cell_arrangement; cell_controller; cell_hw_layer;
    cell_readout_hw; cell_hw_net;
    cell_commented_out;
    cell_load_readout_hw; cell_hw_inference; cell_hw_plot ].

Definition run : state * list (option exn) := run_cells cells initial.

(** "Restart and run all". *)
Definition run_to_first_error : state * option (nat * exn) := run_all cells initial.
End Cells.
End Demo.


(** ** Reading a trace *)

(** The value of a keyword argument. *)
Fixpoint kwarg (k : string) (args : list arg) : option value :=
  match args with
  | [] => None
  | Kw k' v :: args' => if decide (k' = k) then Some v else kwarg k args'
  | _ :: args' => kwarg k args'
  end.

Definition positional (args : list arg) : list value :=
  omap (fun a => match a with Pos v => Some v | _ => None end) args.

(** The arrays among the arguments of a call, by address. *)
Definition array_args (args : list arg) : list nat :=
  omap (fun a => match a with
                 | Pos (VArr l) | Kw _ (VArr l) => Some l
                 | _ => None
                 end) args.

Definition is_global (m x : string) (v : value) : bool :=
  match v with VGlobal m' x' => bool_decide (m' = m) && bool_decide (x' = x) | _ => false end.

(** The object an event acts on: the receiver of a method call, or the
    target of an attribute or item assignment. *)
Definition receiver (e : event) : option value :=
  match e with
  | ECall (VAttr obj _) _ => Some obj
  | ESetAttr obj _ _ => Some obj
  | ESetItem obj _ _ => Some obj
  | _ => None
  end.

(** The path of the [np.load] call an event is, if it is one. *)
Definition loaded_path (e : event) : option string :=
  match e with
  | ECall (VAttr (VModule "numpy") "load") [Pos (VStr path)] => Some path
  | _ => None
  end.

Definition reservoir_classes : list string := ["RecIAFSpkInNest"; "RecDynapSE"].

(** The earlier calls whose results a value is built from. *)
Fixpoint refs (v : value) : list nat :=
  match v with
  | VRes n => [n]
  | VTuple vs | VList vs | VOp _ vs => flat_map refs vs
  | VDict kvs => flat_map (fun p => let '(_, x) := p in refs x) kvs
  | VAttr x _ => refs x
  | VItem x k => refs x ++ refs k
  | _ => []
  end.

Definition arg_refs (a : arg) : list nat :=
  match a with Pos v | Kw _ v | StarStar v => refs v end.

Definition event_refs (e : event) : list nat :=
  match e with
  | ECall f args => refs f ++ flat_map arg_refs args
  | ESetAttr obj _ v => refs obj ++ refs v
  | ESetItem obj k v => refs obj ++ refs k ++ refs v
  | EDisplay v => refs v
  | _ => []
  end.

(** *** Kinds of effects *)

Inductive kind :=
  | FileLoad            (* [np.load] *)
  | WeightScaling       (* in-place arithmetic on a loaded array *)
  | Plotting            (* matplotlib, and the [plot] methods of the library's series *)
  | Setup               (* imports, magics, pip, warnings filter *)
  | Construction        (* instantiating a class of the library or the data loader *)
  | Inference           (* [evolve] and [reset_all] of a network *)
  | DataLoading         (* [get_single_batch] of the data loader *)
  | HardwareControl     (* neuron arrangement, bias loading, silencing hot neurons *)
  | SeriesHandling      (* [clip], [copy], and storing [abs(..)] of an output *)
  | ParameterLoading    (* assigning a layer's [weights] or [bias] *)
  | Output.             (* [print], and the value a cell displays *)

#[export] Instance kind_eq_dec : EqDecision kind.
Proof. solve_decision. Defined.

Definition library_classes : list (string * string) :=
  [("scripts.dataloader", "ECGDataLoader"); ("rockpool.layers", "FFUpDown");
   ("rockpool.layers", "RecIAFSpkInNest"); ("rockpool.layers", "FFExpSyn");
   ("rockpool.layers", "RecDynapSE"); ("rockpool", "Network");
   ("rockpool", "TSContinuous"); ("rockpool.devices", "DynapseControlExtd")].

Definition kind_of_global (m x : string) : option kind :=
  if bool_decide ((m, x) ∈ library_classes) then Some Construction
  else if bool_decide ((m, x) = ("rockpool.devices", "rectangular_neuron_arrangement"))
  then Some HardwareControl
  else if bool_decide ((m, x) = ("scripts.plot_example_beats", "plot_examples")) then Some Plotting
  else if bool_decide ((m, x) = ("builtins", "print")) then Some Output
  else None.

Definition kind_of_module_function (m f : string) : option kind :=
  if bool_decide (m = "numpy") then (if bool_decide (f = "load") then Some FileLoad else None)
  else if bool_decide (m = "matplotlib.pyplot") then Some Plotting
  else if bool_decide ((m, f) = ("warnings", "filterwarnings")) then Some Setup
  else None.

Definition kind_of_method (m : string) : option kind :=
  if bool_decide (m ∈ ["plot"; "set_title"; "set_xlabel"; "set_visible"]) then Some Plotting
  else if bool_decide (m ∈ ["evolve"; "reset_all"]) then Some Inference
  else if bool_decide (m = "get_single_batch") then Some DataLoading
  else if bool_decide (m ∈ ["load_biases"; "silence_hot_neurons"]) then Some HardwareControl
  else if bool_decide (m ∈ ["clip"; "copy"]) then Some SeriesHandling
  else None.

Definition kind_of (e : event) : option kind :=
  match e with
  | EImport _ | EMagic _ | EShell _ => Some Setup
  | EArrayWrite _ => Some WeightScaling
  | ESetAttr _ a _ => if bool_decide (a ∈ ["weights"; "bias"]) then Some ParameterLoading else None
  | ESetItem _ _ (VOp "abs" _) => Some SeriesHandling
  | ESetItem _ _ _ => None
  | EDisplay _ => Some Output
  | ECall (VGlobal m x) _ => kind_of_global m x
  | ECall (VAttr (VModule m) f) _ => kind_of_module_function m f
  | ECall (VAttr (VAttr (VModule "importlib") "util") "find_spec") _ => Some Setup
  | ECall (VAttr _ m) _ => kind_of_method m
  | ECall _ _ => None
  end.

(** The categories the specification lists (configuration constants leave
    no effect, so they have no kind). *)
Definition listed : list kind := [FileLoad; WeightScaling; Plotting].

(** What the notebooks do besides. *)
Definition orchestration : list kind :=
  [Setup; Construction; Inference; DataLoading; HardwareControl; SeriesHandling;
   ParameterLoading; Output].

(** *** The orchestration steps of a trace *)

Inductive step :=
  | Built (cls : string) (obj : value) (parts : list value)
      (* [obj = cls(parts, ..)]: a library object and its positional arguments *)
  | Fetched (batch : value)
      (* [batch = data_loader.get_single_batch(..)] *)
  | Assigned (obj : value) (a : string) (path : option string)
      (* [obj.a = <array>], right after [np.load(path)] *)
  | Evolved (net : value) (input : list arg).
      (* [net.evolve(input)] *)

Definition orchestrated : list string :=
  ["ECGDataLoader"; "FFUpDown"; "RecIAFSpkInNest"; "RecDynapSE"; "FFExpSyn"; "Network"].

Definition indexed_forallb {A} (f : nat -> A -> bool) (l : list A) : bool :=
  forallb (fun p => f p.1 p.2) (imap pair l).

Section Reading.
Context {vec mat : Type}.

Local Abbreviation state := (state vec mat).
Local Abbreviation entry := (entry vec mat).
Local Abbreviation ndarray := (ndarray vec mat).

(** The value a global name is bound to ([None] in Python if unbound). *)
Definition global (s : state) (x : string) : value := default VNone (names s !! x).

(** The 2-D array a global name is bound to. *)
Definition bound_matrix (s : state) (x : string) : option mat :=
  match names s !! x with
  | Some (VArr l) => match arrays s !! l with Some (Arr2 _ m) => Some m | _ => None end
  | _ => None
  end.

(** An array argument, read in the store as it was at the call. *)
Definition array_of (mem : list ndarray) (v : value) : option ndarray :=
  match v with VArr l => mem !! l | _ => None end.

(** The calls to the function or class [x] of module [m], oldest first:
    its arguments and the array store at the call. *)
Definition calls_to (m x : string) (t : list entry) : list (list arg * list ndarray) :=
  omap (fun e => match ev e with
                 | ECall f args => if is_global m x f then Some (args, mem e) else None
                 | _ => None
                 end) t.

(** The weight matrices a layer constructor was given. *)
Definition weights_given (c : list arg * list ndarray) : option ndarray * option ndarray :=
  (kwarg "weights_in" c.1 ≫= array_of c.2, kwarg "weights_rec" c.1 ≫= array_of c.2).

(** The array that the call which created an object was given as
    keyword argument [k]. *)
Definition constructor_array (t : list entry) (obj : value) (k : string) : option ndarray :=
  match obj with
  | VRes n => e ← t !! n;
              match ev e with
              | ECall _ args => kwarg k args ≫= array_of (mem e)
              | _ => None
              end
  | _ => None
  end.

(** The method calls [obj.m(..)] of a trace. *)
Definition is_method_call (m : string) (e : entry) : bool :=
  match ev e with
  | ECall (VAttr _ m') _ => bool_decide (m' = m)
  | _ => false
  end.

(** The attribute assignments of a trace: object, attribute and assigned array. *)
Definition attribute_writes (t : list entry) : list (value * string * option ndarray) :=
  omap (fun e => match ev e with
                 | ESetAttr obj a v => Some (obj, a, array_of (mem e) v)
                 | _ => None
                 end) t.

(** The class whose call created an object: the name of the global that
    the creating call applied. *)
Definition class_of (t : list entry) (v : value) : option string :=
  match v with
  | VRes n => match ev <$> t !! n with
              | Some (ECall (VGlobal _ c) _) => Some c
              | _ => None
              end
  | _ => None
  end.

Definition step_of (t : list entry) (i : nat) (e : entry) : option step :=
  match ev e with
  | ECall (VGlobal _ c) args =>
      if bool_decide (c ∈ orchestrated) then Some (Built c (VRes i) (positional args)) else None
  | ECall (VAttr net m) args =>
      if bool_decide (m = "evolve") then Some (Evolved net args)
      else if bool_decide (m = "get_single_batch") then Some (Fetched (VRes i))
      else None
  | ESetAttr obj a (VArr _) =>
      Some (Assigned obj a (t !! pred i ≫= fun e' => loaded_path (ev e')))
  | _ => None
  end.

Definition steps (t : list entry) : list step :=
  omap id (imap (step_of t) t).

(** *** Checks on a trace *)

(** Every effect has a kind, and one among [ks]. *)
Definition classified_in (ks : list kind) (t : list entry) : bool :=
  forallb (fun e => match kind_of (ev e) with
                    | Some k => bool_decide (k ∈ ks)
                    | None => false
                    end) t.

(** Every effect has a kind, listed by the specification or not. *)
Definition all_classified (t : list entry) : bool :=
  classified_in (listed ++ orchestration) t.

(** Attribute assignments go to objects built by [FFExpSyn], and to their
    [weights] or [bias]. *)
Definition assigns_only_readouts (t : list entry) : bool :=
  forallb (fun e => match ev e with
                    | ESetAttr obj a _ =>
                        bool_decide (class_of t obj = Some "FFExpSyn")
                        && bool_decide (a ∈ ["weights"; "bias"])
                    | _ => true
                    end) t.

(** No method is called on, and nothing is assigned to, a reservoir. *)
Definition reservoirs_untouched (t : list entry) : bool :=
  forallb (fun e => match receiver (ev e) ≫= class_of t with
                    | Some c => negb (bool_decide (c ∈ reservoir_classes))
                    | None => true
                    end) t.

(** An array handed to a reservoir constructor is not updated in place
    afterwards. *)
Definition frozen_after (t : list entry) (i : nat) (e : entry) : bool :=
  match ev e, class_of t (VRes i) with
  | ECall _ args, Some c =>
      negb (bool_decide (c ∈ reservoir_classes))
      || forallb (fun e' => match ev e' with
                            | EArrayWrite l => negb (bool_decide (l ∈ array_args args))
                            | _ => true
                            end) (drop (S i) t)
  | _, _ => true
  end.

Definition reservoir_arrays_frozen (t : list entry) : bool :=
  indexed_forallb (frozen_after t) t.

(** No call of a method named [train_rr]. *)
Definition never_trains (t : list entry) : bool :=
  forallb (fun e => negb (is_method_call "train_rr" e)) t.

(** No call of a method named [evolve]. *)
Definition never_evolves (t : list entry) : bool :=
  forallb (fun e => negb (is_method_call "evolve" e)) t.

(** Results are used only after the call that returned them. *)
Definition refers_back (t : list entry) : bool :=
  indexed_forallb (fun i e => forallb (fun n => n <? i) (event_refs (ev e))) t.
End Reading.

(** The index of the call that returned a value. *)
Definition call_index (v : value) : nat := match v with VRes n => n | _ => 0 end.

(** ** The summary of a run *)

Record summary (vec mat : Type) := Summary {
  outcomes : list (option exn);
  weights : list (option mat);
    (* weights_res_in, weights_rec, weights_res_in_scaled, weights_rec_scaled *)
  sw_reservoirs : list (option (ndarray vec mat) * option (ndarray vec mat));
  hw_reservoirs : list (option (ndarray vec mat) * option (ndarray vec mat));
  encoders : list (list arg);
  readouts : list (option (ndarray vec mat));
  writes : list (value * string * option (ndarray vec mat));
  timeline : list step;
  classes : list (option string);
  constants : list (option value);
  defined : list string;
  checks : list bool
}.
Arguments Summary {vec mat}.
Arguments outcomes {vec mat} s.
Arguments weights {vec mat} s.
Arguments sw_reservoirs {vec mat} s.
Arguments hw_reservoirs {vec mat} s.
Arguments encoders {vec mat} s.
Arguments readouts {vec mat} s.
Arguments writes {vec mat} s.
Arguments timeline {vec mat} s.
Arguments classes {vec mat} s.
Arguments constants {vec mat} s.
Arguments defined {vec mat} s.
Arguments checks {vec mat} s.

Definition objects : list string :=
  ["data_loader"; "spike_enc"; "reservoir"; "readout"; "sw_net";
   "controller"; "reservoir_hw"; "hw_layer"; "readout_hw"; "hw_net"].

(** Names the later cells of a notebook rely on. *)
Definition relied_on : list string :=
  objects ++ ["neuron_ids"; "TSContinuous"; "size_full"; "size_in"; "size_inhib"].

Definition summarize {vec mat} (r : state vec mat * list (option exn)) : summary vec mat :=
  let s := r.1 in
  let t := trace s in
  {| outcomes := r.2;
     weights := bound_matrix s <$>
       ["weights_res_in"; "weights_rec"; "weights_res_in_scaled"; "weights_rec_scaled"];
     sw_reservoirs := weights_given <$> calls_to "rockpool.layers" "RecIAFSpkInNest" t;
     hw_reservoirs := weights_given <$> calls_to "rockpool.layers" "RecDynapSE" t;
     encoders := fst <$> calls_to "rockpool.layers" "FFUpDown" t;
     readouts := (fun x => constructor_array t (global s x) "weights") <$>
                   ["readout"; "readout_hw"];
     writes := attribute_writes t;
     timeline := steps t;
     classes := (fun x => names s !! x ≫= class_of t) <$> objects;
     constants := (fun x => names s !! x) <$>
       ["NUM_ECG_LEADS"; "NUM_ANOM_CLASSES"; "num_ch_in"; "virtual_neuron_ids"; "neuron_ids"];
     defined := filter (fun x => is_Some (names s !! x)) relied_on;
     checks := [all_classified t; assigns_only_readouts t; reservoirs_untouched t;
                reservoir_arrays_frozen t; never_trains t; refers_back t;
                never_evolves t] |}.

(** The encoder's arguments, in both notebooks. *)
Definition encoder_args : list arg :=
  [Kw "weights" (VInt 2); Kw "dt" (VFloat 0.002778); Kw "thr_up" (VFloat 0.1);
   Kw "thr_down" (VFloat 0.1); Kw "multiplex_spikes" (VBool true);
   Kw "name" (VStr "spike_encoder")].

Definition first4 : slice := Slice None (Some 4%Z).

Section Expected.
Context {vec mat : Type} `{!Arrays vec mat}.

(** What the four in-place statements of [scale_weights_rec] compute when
    [start_rec = 128], [start_inh = 640] and the base weights are the
    notebooks'. *)
Definition scale_rec (m : mat) : mat :=
  arr_imul_block (Slice (Some 640%Z) None) (Slice (Some 128%Z) (Some 640%Z)) 1e-4
    (arr_imul_block (Slice (Some 128%Z) (Some 640%Z)) (Slice (Some 640%Z) None) 8e-5
      (arr_imul_block (Slice (Some 128%Z) (Some 640%Z)) (Slice (Some 128%Z) (Some 640%Z)) 8e-5
        (arr_imul_block (Slice None (Some 128%Z)) (Slice (Some 128%Z) (Some 640%Z)) 8e-5 m))).

(** The ids the four rectangles of the arrangement cell contribute. *)
Definition neuron_ids_of (w : World vec mat) : list Z :=
  (((rectangle w 4 128 8 ++ rectangle w 256 256 16) ++ rectangle w 768 256 16)
   ++ rectangle w 516 128 8)%list.

(** A stored array after an operation that keeps its number of rows. *)
Definition keep_rows (f : mat -> mat) (a : npy mat) : ndarray vec mat :=
  Arr2 (nrows a) (f (data a)).

Definition workshop_expected (w : World vec mat) (s : state vec mat) : summary vec mat :=
  let dl := global s "data_loader" in
  let enc := global s "spike_enc" in
  let res := global s "reservoir" in
  let ro := global s "readout" in
  let res_hw := global s "reservoir_hw" in
  let ro_hw := global s "readout_hw" in
  let input x := [Pos (VAttr (global s x) "input")] in
  let zero_weights r := let n := layer_size w (call_index r) in Arr2 n (arr_zeros n 4) in
  {| outcomes := replicate 24 None;
     weights := [Some (data (weights_res_in_npy w)); Some (data (weights_rec_npy w));
                 Some (arr_mul 5e-4 (data (weights_res_in_npy w)));
                 Some (scale_rec (data (weights_rec_npy w)))];
     sw_reservoirs := [(Some (keep_rows (arr_mul 5e-4) (weights_res_in_npy w)),
                        Some (keep_rows scale_rec (weights_rec_npy w)))];
     hw_reservoirs := [(Some (stored (weights_res_in_npy w)),
                        Some (stored (weights_rec_npy w)))];
     encoders := [encoder_args];
     readouts := [Some (zero_weights res); Some (zero_weights res_hw)];
     writes := [(ro, "weights", Some (stored (readout_weights_npy w)));
                (ro, "bias", Some (Arr1 (readout_bias_npy w)));
                (ro_hw, "weights",
                 Some (keep_rows (arr_columns first4) (readout_weights_hw_npy w)));
                (ro_hw, "bias", Some (Arr1 (arr_vslice first4 (readout_bias_hw_npy w))))];
     timeline :=
       [Built "ECGDataLoader" dl [];
        Built "FFUpDown" enc [];
        Built "RecIAFSpkInNest" res [];
        Built "FFExpSyn" ro [];
        Built "Network" (global s "sw_net") [enc; res; ro];
        Assigned ro "weights" (Some "network/readout_weights.npy");
        Assigned ro "bias" (Some "network/readout_bias.npy");
        Fetched (global s "ecg_data");
        Evolved (global s "sw_net") (input "ecg_data");
        Built "RecDynapSE" res_hw [];
        Built "FFExpSyn" ro_hw [];
        Built "Network" (global s "hw_net") [enc; res_hw; ro_hw];
        Assigned ro_hw "weights" (Some "network/readout_weights_hw.npy");
        Assigned ro_hw "bias" (Some "network/readout_bias_hw.npy");
        Fetched (global s "ecg_data_hw");
        Evolved (global s "hw_net") (input "ecg_data_hw")];
     classes := [Some "ECGDataLoader"; Some "FFUpDown"; Some "RecIAFSpkInNest";
                 Some "FFExpSyn"; Some "Network"; Some "DynapseControlExtd";
                 Some "RecDynapSE"; None; Some "FFExpSyn"; Some "Network"];
     constants := [Some (VInt 2); Some (VInt 4); None;
                   Some (VInts [1; 2; 3; 12]%Z); Some (VInts (neuron_ids_of w))];
     defined := ["data_loader"; "spike_enc"; "reservoir"; "readout"; "sw_net";
                 "controller"; "reservoir_hw"; "readout_hw"; "hw_net";
                 "neuron_ids"; "TSContinuous"];
     checks := [true; true; true; true; true; true; false] |}.


(** The Demo notebook: the run depends on whether [np.hstack] accepts the
    expansion weights (they need the four rows of the zero block), and on
    whether the two [.py] files exist. *)
Definition demo_failures (joined hw_files : bool) : list (option exn) :=
  let n x := Some (NameError x) in
  (replicate 5 None ++
   (if joined then [None; None; None; None; n "size_full"; n "readout"]
    else [Some ValueError; n "weights_res_in_scaled"; n "weights_rec_scaled";
          n "weights_res_in"; n "size_full"; n "reservoir"]) ++
   [None; None; None; n "readout"; n "sw_net"; n "TSContinuous"; None; n "size_in"] ++
   (if joined then [n "neuron_ids"; n "neuron_ids"] else [n "reservoir"; n "weights_res_in"]) ++
   [n "size_full"; n "sw_net"; None;
    if hw_files then n "readout_hw"
    else Some (FileNotFoundError "network/readout_weights_hw.py");
    n "hw_net"; n "TSContinuous"])%list.

(** The input weights of the Demo notebook, [np.hstack((weights_expand,
    np.zeros((num_ch_in, size_reservoir))))]. *)
Definition demo_weights_res_in (w : World vec mat) : npy mat :=
  Npy 4 (arr_hstack (data (weights_expand_npy w)) (arr_zeros 4 640)).

Definition demo_expected (w : World vec mat) (s : state vec mat) : summary vec mat :=
  let dl := global s "data_loader" in
  let enc := global s "spike_enc" in
  let res := global s "reservoir" in
  let joined := bool_decide (nrows (weights_expand_npy w) = 4) in
  let win := demo_weights_res_in w in
  {| outcomes := demo_failures joined (bool_decide (is_Some (readout_hw_py w)));
     weights :=
       if joined
       then [Some (data win); Some (data (weights_rec_npy w)); Some (arr_mul 5e-4 (data win));
             Some (scale_rec (data (weights_rec_npy w)))]
       else [None; None; None; None];
     sw_reservoirs :=
       if joined then [(Some (stored win), Some (stored (weights_rec_npy w)))] else [];
     hw_reservoirs := [];
     encoders := [encoder_args];
     readouts := [None; None];
     writes := [];
     timeline :=
       ([Built "ECGDataLoader" dl []; Built "FFUpDown" enc []] ++
        if joined
        then [Built "RecIAFSpkInNest" res []; Fetched (VRes 35); Fetched (VRes 42)]
        else [Fetched (VRes 21); Fetched (VRes 26)])%list;
     classes :=
       ([Some "ECGDataLoader"; Some "FFUpDown"] ++
        (if joined
         then [Some "RecIAFSpkInNest"; None; None; Some "DynapseControlExtd"]
         else [None; None; None; None]) ++ [None; None; None; None])%list;
     constants := [Some (VInt 2); Some (VInt 5); Some (VInt 4); None; None];
     defined := (["data_loader"; "spike_enc"] ++
                 if joined then ["reservoir"; "controller"] else [])%list;
     checks := replicate 7 true |}.
End Expected.



(** ** The claims' vocabulary *)

Import Float64.

(** The base weight of entry [(i, j)] of the recurrent matrix as the
    specification words it: four blocks, and no factor elsewhere. *)
Definition block_factor (i j : nat) : option float :=
  if (i <? 128) && (128 <=? j) && (j <? 640) then Some 8e-5%float
  else if (128 <=? i) && (i <? 640) && (128 <=? j) && (j <? 640) then Some 8e-5%float
  else if (128 <=? i) && (i <? 640) && (640 <=? j) then Some 8e-5%float
  else if (640 <=? i) && (128 <=? j) && (j <? 640) then Some 1e-4%float
  else None.

Definition scaled_entry (i j : nat) (x : float) : float :=
  match block_factor i j with Some c => (x * c)%float | None => x end.

(** A stored list-of-rows matrix. *)
Definition npy_of (m : matrix) : npy matrix := Npy (length m) m.

(** A rectangle of neurons on rows of 16, its upper left corner at
    [first]: what the notebooks' text says the arrangement function
    returns ("the neurons will be assigned so they form rectangles"). *)
Definition grid_rectangle (first num width : Z) : list Z :=
  r ← seq 0 (Z.to_nat ((num + width - 1) / width));
  c ← seq 0 (Z.to_nat width);
  [(first + 16 * Z.of_nat r + Z.of_nat c)%Z].

(** The arrangement function only returns ids of the rectangle whose upper
    left corner is [first] and whose width is [width], on rows of 16. *)
Definition on_grid {vec mat} (w : World vec mat) : Prop :=
  forall first num width id,
    id ∈ rectangle w first num width ->
    exists r c, (0 <= r /\ 0 <= c < width /\ id = first + 16 * r + c)%Z.

(** A world to run the notebooks in: small arrays in the files, five
    labels, the grid arrangement. *)
Definition sample_world : World vector matrix := {|
  weights_res_in_npy := npy_of [[1; 0]; [0; 1]; [1; 1]; [0; 0]]%float;
  weights_rec_npy := npy_of [replicate 129 1%float];
  weights_expand_npy := npy_of [[1]; [1]; [1]; [1]]%float;
  readout_weights_npy := npy_of [[1; 2; 3; 4]]%float;
  readout_bias_npy := [0; 0; 0; 0]%float;
  readout_weights_hw_npy := npy_of [[1; 2; 3; 4; 5]; [6; 7; 8; 9; 10]]%float;
  readout_bias_hw_npy := [1; 2; 3; 4; 5]%float;
  readout_hw_py := None;
  layer_size := fun _ => 2;
  rectangle := grid_rectangle;
  labels := ["normal"; "a"; "b"; "c"; "d"];
  ipympl_installed := true
|}.

(** The [Assigned] steps of a timeline. *)
Definition assignments (l : list step) : list (value * string * option string) :=
  omap (fun s => match s with Assigned o a p => Some (o, a, p) | _ => None end) l.

(** The scaled matrices bound at the end of a run, entry by entry, against
    the matrices [m_in] and [m_rec] they were computed from. *)
Definition scaled_from (s : state vector matrix) (m_in m_rec : matrix) : Prop :=
  bound_matrix s "weights_res_in" = Some m_in /\
  bound_matrix s "weights_rec" = Some m_rec /\
  exists m_in_s m_rec_s,
    bound_matrix s "weights_res_in_scaled" = Some m_in_s /\
    bound_matrix s "weights_rec_scaled" = Some m_rec_s /\
    forall i j,
      elem m_in_s i j = (fun x => (x * 5e-4)%float) <$> elem m_in i j /\
      elem m_rec_s i j = scaled_entry i j <$> elem m_rec i j.


(** Whether entry [(i, j)] of a matrix is the float [x]. *)
Definition elem_is (i j : nat) (x : float) (m : option matrix) : bool :=
  match m ≫= fun m => elem m i j with
  | Some y => PrimFloat.eqb y x
  | None => false
  end.

(** No call of a method named [m] in a trace. *)
Definition never_calls {vec mat} (m : string) (t : list (entry vec mat)) : Prop :=
  Forall (fun e => forall obj args, ev e <> ECall (VAttr obj m) args) t.

(** Attribute assignments go to objects built by [FFExpSyn], and to their
    [weights] or [bias]. *)
Definition only_readouts_assigned {vec mat} (t : list (entry vec mat)) : Prop :=
  Forall (fun e => forall obj a v, ev e = ESetAttr obj a v ->
                   class_of t obj = Some "FFExpSyn" /\ a ∈ ["weights"; "bias"]) t.

(** No method is called on a reservoir, and nothing is assigned to one or
    to an attribute or item of one. *)
Definition reservoirs_left_alone {vec mat} (t : list (entry vec mat)) : Prop :=
  Forall (fun e => forall obj c, receiver (ev e) = Some obj ->
                   class_of t obj = Some c -> c ∉ reservoir_classes) t.

(** The arrays a reservoir was built from are not updated in place after
    the call that built it. *)
Definition reservoir_weights_frozen {vec mat} (t : list (entry vec mat)) : Prop :=
  forall i j e e' f args c l,
    t !! i = Some e -> ev e = ECall f args ->
    class_of t (VRes i) = Some c -> c ∈ reservoir_classes -> l ∈ array_args args ->
    i < j -> t !! j = Some e' -> ev e' <> EArrayWrite l.



(** ** Further observations of a run *)

(** The shell commands of a trace. *)
Definition shell_commands {vec mat} (t : list (entry vec mat)) : list string :=
  omap (fun e => match ev e with EShell c => Some c | _ => None end) t.

(** The paths handed to [np.load], oldest first. *)
Definition loaded_paths {vec mat} (t : list (entry vec mat)) : list string :=
  omap (fun e => loaded_path (ev e)) t.

(** The calls of the methods named in [ms]: receiver, method, arguments. *)
Definition method_calls {vec mat} (ms : list string) (t : list (entry vec mat))
  : list (value * string * list arg) :=
  omap (fun e => match ev e with
                 | ECall (VAttr obj m) args =>
                     if bool_decide (m ∈ ms) then Some (obj, m, args) else None
                 | _ => None
                 end) t.

(** The functions and classes that were handed the array bound to [x]. *)
Definition handed_to {vec mat} (s : state vec mat) (x : string) : list value :=
  match names s !! x with
  | Some (VArr l) =>
      omap (fun e => match ev e with
                     | ECall f args =>
                         if bool_decide (l ∈ array_args args) then Some f else None
                     | _ => None
                     end) (trace s)
  | _ => []
  end.

(** The panels of the per-anomaly figures: the channel of the last
    [clip(channels=i)] before each [set_title(lbl)]. *)
Fixpoint panels_from (last : option Z) (es : list event) : list (Z * string) :=
  match es with
  | [] => []
  | ECall (VAttr _ "clip") [Kw "channels" (VInt i)] :: es' => panels_from (Some i) es'
  | ECall (VAttr _ "set_title") [Pos (VStr l)] :: es' =>
      match last with
      | Some i => (i, l) :: panels_from None es'
      | None => panels_from None es'
      end
  | _ :: es' => panels_from last es'
  end.

Definition panels {vec mat} (t : list (entry vec mat)) : list (Z * string) :=
  panels_from None (ev <$> t).

Definition keywords (ks : list string) (args : list arg) : list (option value) :=
  (fun k => kwarg k args) <$> ks.


(** What else is read off a run. *)
Record observed := Observed {
  shells : list string;
  files : list string;
  inference_calls : list (value * string * list arg);
  hardware_calls : list (value * string * list arg);
  recipients : list (list value);
  figure_panels : list (Z * string);
  hw_keywords : list (list (option value));
  controllers : list (list arg);
  arrangements : list (list arg);
  series_class : option value;
  weights_bound : list bool
}.

Definition weight_names : list string :=
  ["weights_res_in"; "weights_rec"; "weights_res_in_scaled"; "weights_rec_scaled";
   "weights_expand"].

Definition hw_keyword_names : list string :=
  ["neuron_ids"; "virtual_neuron_ids"; "controller"; "dt"; "skip_weights";
   "clearcores_list"; "name"].

Definition observe {vec mat} (r : state vec mat * list (option exn)) : observed :=
  let s := r.1 in
  let t := trace s in
  {| shells := shell_commands t;
     files := loaded_paths t;
     inference_calls := method_calls ["get_single_batch"; "evolve"; "reset_all"] t;
     hardware_calls := method_calls ["load_biases"; "silence_hot_neurons"] t;
     recipients := handed_to s <$> weight_names;
     figure_panels := panels t;
     hw_keywords := keywords hw_keyword_names <$>
                      (fst <$> calls_to "rockpool.layers" "RecDynapSE" t);
     controllers := fst <$> calls_to "rockpool.devices" "DynapseControlExtd" t;
     arrangements := fst <$> calls_to "rockpool.devices" "rectangular_neuron_arrangement" t;
     series_class := names s !! "TSContinuous";
     weights_bound := (fun x => bool_decide (is_Some (names s !! x))) <$> weight_names |}.

(** The sample world with expansion weights of three rows. *)
Definition short_world : World vector matrix := {|
  weights_res_in_npy := weights_res_in_npy sample_world;
  weights_rec_npy := weights_rec_npy sample_world;
  weights_expand_npy := npy_of [[1]; [1]; [1]]%float;
  readout_weights_npy := readout_weights_npy sample_world;
  readout_bias_npy := readout_bias_npy sample_world;
  readout_weights_hw_npy := readout_weights_hw_npy sample_world;
  readout_bias_hw_npy := readout_bias_hw_npy sample_world;
  readout_hw_py := None;
  layer_size := layer_size sample_world;
  rectangle := grid_rectangle;
  labels := labels sample_world;
  ipympl_installed := false
|}.

(** The panels of one per-anomaly figure of the workshop notebook: the
    axes of a 2 x 2 grid zipped with [labels[1:]]. *)
Definition workshop_panels (lbls : list string) : list (Z * string) :=
  imap (fun i l => (Z.of_nat i, l)) (take 4 (drop 1 lbls)).

Section Observed.
Context {vec mat : Type} `{!Arrays vec mat}.

Definition workshop_observed (w : World vec mat) (s : state vec mat) : observed :=
  let g := global s in
  let fetch := (g "data_loader", "get_single_batch", [Kw "num_beats" (VInt 100)]) in
  {| shells := if ipympl_installed w then [] else ["pip install ipympl"];
     files := ["network/weights_res_in.npy"; "network/weights_rec.npy";
               "network/kwargs_reservoir.npz"; "network/readout_weights.npy";
               "network/readout_bias.npy"; "network/readout_weights_hw.npy";
               "network/readout_bias_hw.npy"];
     inference_calls :=
       [fetch;
        (g "sw_net", "evolve", [Pos (VAttr (g "ecg_data") "input")]);
        (g "sw_net", "reset_all", []);
        (g "sw_net", "reset_all", []);
        fetch;
        (g "hw_net", "evolve", [Pos (VAttr (g "ecg_data_hw") "input")]);
        (g "hw_net", "reset_all", [])];
     hardware_calls :=
       [(g "controller", "load_biases", [Pos (VStr "network/biases.py")]);
        (g "controller", "silence_hot_neurons",
         [Pos (VInts (neuron_ids_of w)); Pos (VInt 5)])];
     recipients :=
       [[VGlobal "rockpool.layers" "RecDynapSE"]; [VGlobal "rockpool.layers" "RecDynapSE"];
        [VGlobal "rockpool.layers" "RecIAFSpkInNest"];
        [VGlobal "rockpool.layers" "RecIAFSpkInNest"]; []];
     figure_panels := workshop_panels (labels w) ++ workshop_panels (labels w);
     hw_keywords :=
       [[Some (VInts (neuron_ids_of w)); Some (VInts [1; 2; 3; 12]%Z);
         Some (g "controller");
         Some (VOp "mul" [VFloat 0.1; VAttr (g "reservoir") "dt"]);
         Some (VBool true); None; Some (VStr "hardware")]];
     controllers := [[]];
     arrangements :=
       [[StarStar (Workshop.rectangle_params 4 128 8)];
        [StarStar (Workshop.rectangle_params 256 256 16)];
        [StarStar (Workshop.rectangle_params 768 256 16)];
        [StarStar (Workshop.rectangle_params 516 128 8)]];
     series_class := Some (VGlobal "rockpool" "TSContinuous");
     weights_bound := [true; true; true; true; false] |}.

Definition demo_observed (w : World vec mat) (s : state vec mat) : observed :=
  let g := global s in
  let joined := bool_decide (nrows (weights_expand_npy w) = 4) in
  let fetch := (g "data_loader", "get_single_batch", [Kw "num_beats" (VInt 100)]) in
  let imshow := VAttr (VModule "matplotlib.pyplot") "imshow" in
  {| shells := [];
     files := (["network/weights_expand.npy"] ++
               (if joined then ["network/weights_rec.npy"] else []) ++
               ["network/kwargs_reservoir.npz"; "network/readout_weights.npy";
                "network/readout_weights_hw.py"])%list;
     inference_calls := [fetch; fetch];
     hardware_calls :=
       if joined then [(g "controller", "load_biases", [Pos (VStr "network/biases.py")])]
       else [];
     recipients :=
       if joined
       then [[VGlobal "rockpool.layers" "RecIAFSpkInNest"];
             [VGlobal "rockpool.layers" "RecIAFSpkInNest"]; [imshow]; [imshow]; [imshow]]
       else [[]; []; []; []; [imshow]];
     figure_panels := [];
     hw_keywords := [];
     controllers :=
       if joined then [[Kw "fpga_isibase" (VAttr (g "reservoir") "dt")]] else [];
     arrangements := [];
     series_class := None;
     weights_bound := [joined; joined; joined; joined; true] |}.
End Observed.

(** ** The summaries of the two runs *)

Section Summaries.
Context {vec mat : Type} `{!Arrays vec mat}.

(** A run of the workshop notebook depends on the world only through
    finitely many cases: whether ipympl is installed and how many labels
    the plotting loops zip with the four axes.  The summary is checked by
    evaluation in each case. *)
Lemma workshop_summary (w : World vec mat) :
  summarize (Workshop.run w) = workshop_expected w (Workshop.run w).1.
Proof.
  destruct w as [[? ?] [? ?] [? ?] [? ?] ? [? ?] ? hw lsize rect lbls ip].
  destruct ip; destruct lbls as [|? [|? [|? [|? [|? lbls]]]]];
    vm_compute; reflexivity.
Qed.

Ltac demo_cases w :=
  destruct w as [[? ?] [? ?] [rows ?] [? ?] ? [? ?] ? hw lsize rect lbls ip];
  destruct hw as [[[? ?] ?]|];
  destruct rows as [|[|[|[|[|rows]]]]].

Lemma demo_summary (w : World vec mat) :
  summarize (Demo.run w) = demo_expected w (Demo.run w).1.
Proof. demo_cases w; vm_compute; reflexivity. Qed.

(** "Restart and run all" stops at the readout cell, or earlier at the
    cell that joins the input weights. *)
Lemma demo_first_error (w : World vec mat) :
  (Demo.run_to_first_error w).2 =
  Some (if bool_decide (nrows (weights_expand_npy w) = 4)
        then (9, NameError "size_full") else (5, ValueError)).
Proof. demo_cases w; vm_compute; reflexivity. Qed.

(** Were [size_in] defined, the arrangement cell would still stop, at
    [size_inhib]. *)
Lemma demo_arrangement_needs_size_inhib (w : World vec mat) (n : value) :
  (run_cell (assign "size_in" n;; Demo.cell_arrangement w) (Demo.run w).1).2
  = Some (NameError "size_inhib").
Proof. demo_cases w; vm_compute; reflexivity. Qed.
End Summaries.

(** ** What the checks mean *)

Section Soundness.
Context {vec mat : Type}.
Implicit Types (t : list (entry vec mat)) (e : entry vec mat).

Lemma forallb_elem_of {A} (f : A -> bool) (l : list A) x :
  forallb f l = true -> x ∈ l -> f x = true.
Proof. rewrite forallb_forall. intros H Hx. by apply H, list_elem_of_In. Qed.

Lemma indexed_forallb_lookup {A} (f : nat -> A -> bool) (l : list A) i x :
  indexed_forallb f l = true -> l !! i = Some x -> f i x = true.
Proof.
  intros H Hx. apply (forallb_elem_of _ _ (i, x) H).
  apply list_elem_of_lookup. exists i. by rewrite list_lookup_imap, Hx.
Qed.



Lemma assigns_only_readouts_sound t e obj a v :
  assigns_only_readouts t = true -> e ∈ t -> ev e = ESetAttr obj a v ->
  class_of t obj = Some "FFExpSyn" /\ a ∈ ["weights"; "bias"].
Proof.
  intros H He Hev. unfold assigns_only_readouts in H.
  apply (forallb_elem_of _ _ e) in H; [|done].
  cbv beta in H. rewrite Hev in H. apply andb_true_iff in H as [H1 H2].
  by apply bool_decide_eq_true in H1, H2.
Qed.

Lemma reservoirs_untouched_sound t e obj c :
  reservoirs_untouched t = true -> e ∈ t ->
  receiver (ev e) = Some obj -> class_of t obj = Some c -> c ∉ reservoir_classes.
Proof.
  intros H He Hr Hc. unfold reservoirs_untouched in H.
  apply (forallb_elem_of _ _ e) in H; [|done].
  cbv beta in H. rewrite Hr in H; simpl in H. rewrite Hc in H.
  by apply negb_true_iff, bool_decide_eq_false in H.
Qed.

Lemma reservoir_arrays_frozen_sound t i j e e' f args c l :
  reservoir_arrays_frozen t = true ->
  t !! i = Some e -> ev e = ECall f args ->
  class_of t (VRes i) = Some c -> c ∈ reservoir_classes -> l ∈ array_args args ->
  i < j -> t !! j = Some e' -> ev e' <> EArrayWrite l.
Proof.
  intros H Hi Hev Hc Hres Hl Hij Hj Hw. unfold reservoir_arrays_frozen in H.
  apply (indexed_forallb_lookup _ _ i e) in H; [|done].
  unfold frozen_after in H. rewrite Hev, Hc in H.
  apply orb_true_iff in H as [H|H].
  { by apply negb_true_iff, bool_decide_eq_false in H. }
  apply (forallb_elem_of _ _ e') in H.
  - cbv beta in H. rewrite Hw in H. by apply negb_true_iff, bool_decide_eq_false in H.
  - apply list_elem_of_lookup. exists (j - S i).
    rewrite lookup_drop. by replace (S i + (j - S i)) with j by lia.
Qed.

Lemma never_calls_sound m t e obj args :
  forallb (fun e => negb (is_method_call m e)) t = true ->
  e ∈ t -> ev e <> ECall (VAttr obj m) args.
Proof.
  intros H He Hev. apply (forallb_elem_of _ _ e) in H; [|done].
  unfold is_method_call in H. rewrite Hev in H.
  by rewrite bool_decide_eq_true_2 in H.
Qed.


(** A name that is relied on but not among the defined ones is unbound. *)
Lemma undefined_unbound (s : state vec mat) l x :
  filter (fun x => is_Some (names s !! x)) relied_on = l ->
  x ∈ relied_on -> x ∉ l -> names s !! x = None.
Proof.
  intros <- Hx Hn. apply eq_None_not_Some. intros Hs.
  apply Hn, list_elem_of_filter. by split.
Qed.
End Soundness.

(** ** Lemmas on slices and arrays *)

Lemma clip_index_nat len a : clip_index len (Z.of_nat a) = Nat.min a len.
Proof.
  unfold clip_index.
  destruct (Z.ltb_spec (Z.of_nat a) 0); [lia|].
  destruct (Z.ltb_spec (Z.of_nat a) 0); [lia|].
  by rewrite Nat2Z.id.
Qed.

Lemma in_slice_between len a b i :
  i < len ->
  in_slice len (Slice (Some (Z.of_nat a)) (Some (Z.of_nat b))) i = (a <=? i) && (i <? b).
Proof.
  intros Hi. unfold in_slice, slice_lo, slice_hi; simpl. rewrite !clip_index_nat.
  destruct (Nat.leb_spec a i), (Nat.ltb_spec i b),
    (Nat.leb_spec (a `min` len) i), (Nat.ltb_spec i (b `min` len)); simpl; try done; lia.
Qed.

Lemma in_slice_below len b i :
  i < len -> in_slice len (Slice None (Some (Z.of_nat b))) i = (i <? b).
Proof.
  intros Hi. unfold in_slice, slice_lo, slice_hi; simpl. rewrite clip_index_nat.
  destruct (Nat.ltb_spec i b), (Nat.ltb_spec i (b `min` len)); try done; lia.
Qed.

Lemma in_slice_from len a i :
  i < len -> in_slice len (Slice (Some (Z.of_nat a)) None) i = (a <=? i).
Proof.
  intros Hi. unfold in_slice, slice_lo, slice_hi; simpl. rewrite clip_index_nat.
  destruct (Nat.leb_spec a i), (Nat.leb_spec (a `min` len) i),
    (Nat.ltb_spec i len); simpl; try done; lia.
Qed.

Lemma get_slice_prefix {A} (n : nat) (l : list A) :
  get_slice (Slice None (Some (Z.of_nat n))) l = take n l.
Proof.
  unfold get_slice, slice_lo, slice_hi; simpl. rewrite clip_index_nat, Nat.sub_0_r.
  change (drop 0 l) with l.
  destruct (Nat.min_spec n (length l)) as [[? ->]|[? ->]]; [done|].
  rewrite (take_ge l n) by lia. apply take_ge; lia.
Qed.

Lemma imul_block_length rows cols c m : length (imul_block rows cols c m) = length m.
Proof. apply length_imap. Qed.

Lemma imul_block_row_length rows cols c m i :
  length (default [] (imul_block rows cols c m !! i)) = length (default [] (m !! i)).
Proof.
  unfold imul_block. rewrite list_lookup_imap.
  destruct (m !! i) as [row|]; simpl; [|done].
  destruct (in_slice _ rows i); [apply length_imap|done].
Qed.

Lemma elem_imul_block rows cols c m i j :
  elem (imul_block rows cols c m) i j =
  (fun x => if in_slice (length m) rows i && in_slice (length (default [] (m !! i))) cols j
            then (x * c)%float else x) <$> elem m i j.
Proof.
  unfold elem, imul_block. rewrite list_lookup_imap.
  destruct (m !! i) as [row|] eqn:Hi; simpl; [|done].
  destruct (in_slice (length m) rows i); simpl.
  - rewrite list_lookup_imap. by destruct (row !! j).
  - by destruct (row !! j).
Qed.

Lemma elem_mul_scalar c m i j :
  elem (mul_scalar c m) i j = (fun x => (x * c)%float) <$> elem m i j.
Proof.
  unfold elem, mul_scalar, vmul_scalar. rewrite list_lookup_fmap.
  destruct (m !! i) as [row|]; simpl; [|done].
  by rewrite list_lookup_fmap.
Qed.

(** The four in-place statements scale each entry by the base weight of
    its block, and leave the entries outside the blocks as they are. *)
Lemma elem_scale_rec (m : matrix) i j :
  elem (scale_rec m) i j = scaled_entry i j <$> elem m i j.
Proof.
  unfold scale_rec; simpl.
  rewrite !elem_imul_block, !imul_block_length, !imul_block_row_length.
  destruct (elem m i j) as [x|] eqn:Hx; simpl; [|done].
  assert (i < length m /\ j < length (default [] (m !! i))) as [Hi Hj].
  { unfold elem in Hx. destruct (m !! i) as [row|] eqn:Hrow; simpl in *; [|done].
    split; eapply lookup_lt_Some; eauto. }
  change 128%Z with (Z.of_nat 128). change 640%Z with (Z.of_nat 640).
  rewrite !in_slice_between, !in_slice_below, !in_slice_from by done.
  unfold scaled_entry, block_factor. f_equal. rewrite !Nat.ltb_antisym.
  destruct (Nat.leb_spec 128 i), (Nat.leb_spec 640 i), (Nat.leb_spec 128 j),
    (Nat.leb_spec 640 j); simpl; try done; lia.
Qed.

(** [a[:, :4]] keeps the first four entries of every row. *)
Lemma columns_first4 (m : matrix) : columns first4 m = take 4 <$> m.
Proof.
  unfold columns, first4. change 4%Z with (Z.of_nat 4).
  apply list_fmap_ext; intros ? row _. apply get_slice_prefix.
Qed.

Lemma vslice_first4 (v : vector) : get_slice first4 v = take 4 v.
Proof. unfold first4. change 4%Z with (Z.of_nat 4). apply get_slice_prefix. Qed.

Lemma grid_rectangle_on_grid first num width id :
  id ∈ grid_rectangle first num width ->
  exists r c, (0 <= r /\ 0 <= c < width /\ id = first + 16 * r + c)%Z.
Proof.
  unfold grid_rectangle. intros H.
  apply list_elem_of_bind in H as (r & H & Hr).
  apply list_elem_of_bind in H as (c & H & Hc).
  apply list_elem_of_singleton in H.
  apply elem_of_seq in Hc. exists (Z.of_nat r), (Z.of_nat c). lia.
Qed.

(** ** Projections of the summaries *)

(** Conjuncts are closed by the hypothesis that states them, found by its
    shape (no conversion is attempted between different checks). *)
Ltac conjuncts :=
  cbv zeta; repeat match goal with |- _ /\ _ => split end;
  match goal with H : ?x = ?y |- ?x = ?y => exact H end.

Lemma cons_inv {A} (x y : A) (l k : list A) : x :: l = y :: k -> x = y /\ l = k.
Proof. intros E. by injection E. Qed.

(** The equations between the entries of two equal list literals. *)
Ltac entries H :=
  repeat match goal with
         | E : _ :: _ = _ :: _ |- _ => apply cons_inv in E as [? E]
         end.

Section Facts.
Context {vec mat : Type} `{!Arrays vec mat} (w : World vec mat).

Lemma workshop_checks :
  let t := trace (Workshop.run w).1 in
  all_classified t = true /\ assigns_only_readouts t = true /\
  reservoirs_untouched t = true /\ reservoir_arrays_frozen t = true /\
  never_trains t = true /\ refers_back t = true.
Proof.
  pose proof (f_equal checks (workshop_summary w)) as H.
  cbv [checks summarize workshop_expected] in H.
  entries H. conjuncts.
Qed.

Lemma demo_checks :
  let t := trace (Demo.run w).1 in
  all_classified t = true /\ assigns_only_readouts t = true /\
  reservoirs_untouched t = true /\ reservoir_arrays_frozen t = true /\
  never_trains t = true /\ refers_back t = true /\ never_evolves t = true.
Proof.
  pose proof (f_equal checks (demo_summary w)) as H.
  cbv [checks summarize demo_expected replicate] in H.
  entries H. conjuncts.
Qed.

Lemma workshop_weights :
  let s := (Workshop.run w).1 in
  bound_matrix s "weights_res_in" = Some (data (weights_res_in_npy w)) /\
  bound_matrix s "weights_rec" = Some (data (weights_rec_npy w)) /\
  bound_matrix s "weights_res_in_scaled" = Some (arr_mul 5e-4 (data (weights_res_in_npy w))) /\
  bound_matrix s "weights_rec_scaled" = Some (scale_rec (data (weights_rec_npy w))).
Proof.
  pose proof (f_equal weights (workshop_summary w)) as H.
  cbv [weights summarize workshop_expected fmap list_fmap] in H.
  entries H. conjuncts.
Qed.

Lemma demo_weights :
  nrows (weights_expand_npy w) = 4 ->
  let s := (Demo.run w).1 in
  bound_matrix s "weights_res_in" = Some (data (demo_weights_res_in w)) /\
  bound_matrix s "weights_rec" = Some (data (weights_rec_npy w)) /\
  bound_matrix s "weights_res_in_scaled" = Some (arr_mul 5e-4 (data (demo_weights_res_in w))) /\
  bound_matrix s "weights_rec_scaled" = Some (scale_rec (data (weights_rec_npy w))).
Proof.
  intros Hrows. pose proof (f_equal weights (demo_summary w)) as H.
  cbv [weights summarize demo_expected fmap list_fmap] in H.
  rewrite bool_decide_eq_true_2 in H by done.
  entries H. conjuncts.
Qed.

Lemma workshop_constants :
  let s := (Workshop.run w).1 in
  names s !! "NUM_ECG_LEADS" = Some (VInt 2) /\
  names s !! "NUM_ANOM_CLASSES" = Some (VInt 4) /\
  names s !! "virtual_neuron_ids" = Some (VInts [1; 2; 3; 12]%Z) /\
  names s !! "neuron_ids" = Some (VInts (neuron_ids_of w)).
Proof.
  pose proof (f_equal constants (workshop_summary w)) as H.
  cbv [constants summarize workshop_expected fmap list_fmap] in H.
  entries H. conjuncts.
Qed.


Lemma workshop_classes :
  let s := (Workshop.run w).1 in
  let c x := class_of (trace s) (global s x) in
  c "data_loader" = Some "ECGDataLoader" /\ c "spike_enc" = Some "FFUpDown" /\
  c "reservoir" = Some "RecIAFSpkInNest" /\ c "readout" = Some "FFExpSyn" /\
  c "sw_net" = Some "Network" /\ c "reservoir_hw" = Some "RecDynapSE" /\
  c "readout_hw" = Some "FFExpSyn" /\ c "hw_net" = Some "Network".
Proof.
  destruct w as [[? ?] [? ?] [? ?] [? ?] ? [? ?] ? hw lsize rect lbls ip].
  destruct ip; destruct lbls as [|? [|? [|? [|? [|? lbls]]]]];
    vm_compute; repeat split.
Qed.

(** In the Demo notebook these names are bound in no state the cells
    reach. *)
Lemma demo_unbound x :
  x ∈ ["readout"; "sw_net"; "hw_layer"; "readout_hw"; "hw_net"; "neuron_ids";
       "TSContinuous"; "size_full"; "size_in"; "size_inhib"] ->
  names (Demo.run w).1 !! x = None.
Proof.
  intros Hx. pose proof (f_equal defined (demo_summary w)) as H.
  cbv [defined summarize demo_expected] in H.
  eapply undefined_unbound; [exact H| |]; clear H;
    [|destruct (bool_decide _)];
    repeat (apply elem_of_cons in Hx as [->|Hx]);
    try (by apply elem_of_nil in Hx);
    apply (bool_decide_unpack _); by vm_compute.
Qed.
End Facts.

(** ** Further projections of the summaries *)

Section Runs.
Context {vec mat : Type} `{!Arrays vec mat} (w : World vec mat).

Lemma workshop_reservoirs :
  let t := trace (Workshop.run w).1 in
  weights_given <$> calls_to "rockpool.layers" "RecIAFSpkInNest" t =
    [(Some (keep_rows (arr_mul 5e-4) (weights_res_in_npy w)),
      Some (keep_rows scale_rec (weights_rec_npy w)))] /\
  weights_given <$> calls_to "rockpool.layers" "RecDynapSE" t =
    [(Some (stored (weights_res_in_npy w)), Some (stored (weights_rec_npy w)))].
Proof.
  pose proof (f_equal sw_reservoirs (workshop_summary w)) as H1.
  pose proof (f_equal hw_reservoirs (workshop_summary w)) as H2.
  cbv [sw_reservoirs hw_reservoirs summarize workshop_expected] in H1, H2.
  split; [exact H1|exact H2].
Qed.

Lemma demo_reservoirs :
  nrows (weights_expand_npy w) = 4 ->
  let t := trace (Demo.run w).1 in
  weights_given <$> calls_to "rockpool.layers" "RecIAFSpkInNest" t =
    [(Some (stored (demo_weights_res_in w)), Some (stored (weights_rec_npy w)))] /\
  weights_given <$> calls_to "rockpool.layers" "RecDynapSE" t = [].
Proof.
  intros Hrows.
  pose proof (f_equal sw_reservoirs (demo_summary w)) as H1.
  pose proof (f_equal hw_reservoirs (demo_summary w)) as H2.
  cbv [sw_reservoirs hw_reservoirs summarize demo_expected] in H1, H2.
  rewrite bool_decide_eq_true_2 in H1 by done.
  split; [exact H1|exact H2].
Qed.

Lemma demo_outcomes :
  (Demo.run w).2 =
  demo_failures (bool_decide (nrows (weights_expand_npy w) = 4))
                (bool_decide (is_Some (readout_hw_py w))).
Proof.
  pose proof (f_equal outcomes (demo_summary w)) as H.
  cbv [outcomes summarize demo_expected] in H. exact H.
Qed.


Lemma workshop_timeline :
  let s := (Workshop.run w).1 in
  let g := global s in
  steps (trace s) =
    [Built "ECGDataLoader" (g "data_loader") [];
     Built "FFUpDown" (g "spike_enc") [];
     Built "RecIAFSpkInNest" (g "reservoir") [];
     Built "FFExpSyn" (g "readout") [];
     Built "Network" (g "sw_net") [g "spike_enc"; g "reservoir"; g "readout"];
     Assigned (g "readout") "weights" (Some "network/readout_weights.npy");
     Assigned (g "readout") "bias" (Some "network/readout_bias.npy");
     Fetched (g "ecg_data");
     Evolved (g "sw_net") [Pos (VAttr (g "ecg_data") "input")];
     Built "RecDynapSE" (g "reservoir_hw") [];
     Built "FFExpSyn" (g "readout_hw") [];
     Built "Network" (g "hw_net") [g "spike_enc"; g "reservoir_hw"; g "readout_hw"];
     Assigned (g "readout_hw") "weights" (Some "network/readout_weights_hw.npy");
     Assigned (g "readout_hw") "bias" (Some "network/readout_bias_hw.npy");
     Fetched (g "ecg_data_hw");
     Evolved (g "hw_net") [Pos (VAttr (g "ecg_data_hw") "input")]].
Proof.
  pose proof (f_equal timeline (workshop_summary w)) as H.
  cbv [timeline summarize workshop_expected] in H. exact H.
Qed.


Lemma workshop_writes :
  let s := (Workshop.run w).1 in
  attribute_writes (trace s) =
    [(global s "readout", "weights", Some (stored (readout_weights_npy w)));
     (global s "readout", "bias", Some (Arr1 (readout_bias_npy w)));
     (global s "readout_hw", "weights",
      Some (keep_rows (arr_columns first4) (readout_weights_hw_npy w)));
     (global s "readout_hw", "bias",
      Some (Arr1 (arr_vslice first4 (readout_bias_hw_npy w))))].
Proof.
  pose proof (f_equal writes (workshop_summary w)) as H.
  cbv [writes summarize workshop_expected] in H. exact H.
Qed.

Lemma demo_writes : attribute_writes (trace (Demo.run w).1) = [].
Proof.
  pose proof (f_equal writes (demo_summary w)) as H.
  cbv [writes summarize demo_expected] in H. exact H.
Qed.



Lemma workshop_readouts :
  let s := (Workshop.run w).1 in
  let zero_weights r := let n := layer_size w (call_index r) in Arr2 n (arr_zeros n 4) in
  constructor_array (trace s) (global s "readout") "weights"
    = Some (zero_weights (global s "reservoir")) /\
  constructor_array (trace s) (global s "readout_hw") "weights"
    = Some (zero_weights (global s "reservoir_hw")).
Proof.
  pose proof (f_equal readouts (workshop_summary w)) as H.
  cbv [readouts summarize workshop_expected fmap list_fmap] in H.
  entries H. conjuncts.
Qed.
End Runs.

(** ** From the checks to the properties of a trace *)

Section ScaledFrom.
Context (w : World vector matrix).

Lemma scaled_from_intro (s : state vector matrix) (m_in m_rec : matrix) :
  bound_matrix s "weights_res_in" = Some m_in ->
  bound_matrix s "weights_rec" = Some m_rec ->
  bound_matrix s "weights_res_in_scaled" = Some (arr_mul 5e-4 m_in) ->
  bound_matrix s "weights_rec_scaled" = Some (scale_rec m_rec) ->
  scaled_from s m_in m_rec.
Proof.
  intros H1 H2 H3 H4. split; [exact H1|]. split; [exact H2|].
  exists (arr_mul 5e-4 m_in), (scale_rec m_rec).
  split; [exact H3|]. split; [exact H4|]. clear.
  intros i j. split; [apply elem_mul_scalar|apply elem_scale_rec].
Qed.
End ScaledFrom.

Section Traces.
Context {vec mat : Type}.
Implicit Types (t : list (entry vec mat)).

Lemma never_calls_intro m t :
  forallb (fun e => negb (is_method_call m e)) t = true -> never_calls m t.
Proof.
  intros H. apply Forall_forall. intros e He obj args.
  by apply (never_calls_sound m t).
Qed.

Lemma only_readouts_assigned_intro t :
  assigns_only_readouts t = true -> only_readouts_assigned t.
Proof.
  intros H. apply Forall_forall. intros e He obj a v.
  by apply assigns_only_readouts_sound.
Qed.

Lemma reservoirs_left_alone_intro t :
  reservoirs_untouched t = true -> reservoirs_left_alone t.
Proof.
  intros H. apply Forall_forall. intros e He obj c.
  by apply reservoirs_untouched_sound.
Qed.

Lemma reservoir_weights_frozen_intro t :
  reservoir_arrays_frozen t = true -> reservoir_weights_frozen t.
Proof.
  intros H i j e e' f args c l. by apply reservoir_arrays_frozen_sound.
Qed.

End Traces.



Section Orders.
Context (dl enc res ro net batch res_hw ro_hw net_hw batch_hw : value).
Context (input input_hw : list arg).


End Orders.

Ltac listed_name := apply (bool_decide_unpack _); by vm_compute.

(** ** The claims *)

(** C1, at the run of the Demo notebook in [sample_world]: the one
    [RecIAFSpkInNest] the notebook builds is given the arrays bound to
    [weights_res_in] and [weights_rec], the unscaled ones (entries [(0, 0)]
    and [(0, 128)] are 1), although [weights_res_in_scaled] and
    [weights_rec_scaled] have been computed (the same entries are 5e-4 and
    8e-5); and no [RecDynapSE] is built at all.  In the workshop notebook the
    software reservoir gets the scaled arrays and the hardware reservoir the
    loaded ones, see [workshop_reservoirs]. *)
Theorem C1_demo_software_reservoir_gets_unscaled_weights :
  let s := (Demo.run sample_world).1 in
  let t := trace s in
  exists m_in m_rec,
    weights_given <$> calls_to "rockpool.layers" "RecIAFSpkInNest" t =
      [(Some (Arr2 4 m_in), Some (Arr2 1 m_rec))] /\
    bound_matrix s "weights_res_in" = Some m_in /\
    bound_matrix s "weights_rec" = Some m_rec /\
    elem m_in 0 0 = Some 1%float /\
    elem m_rec 0 128 = Some 1%float /\
    elem_is 0 0 5e-4 (bound_matrix s "weights_res_in_scaled") = true /\
    elem_is 0 128 8e-5 (bound_matrix s "weights_rec_scaled") = true /\
    (5e-4 =? 1)%float = false /\ (8e-5 =? 1)%float = false /\
    weights_given <$> calls_to "rockpool.layers" "RecDynapSE" t = [].
Proof.
  cbv zeta.
  exists (data (demo_weights_res_in sample_world)), (data (weights_rec_npy sample_world)).
  destruct (demo_reservoirs sample_world eq_refl) as [H1 H2].
  destruct (demo_weights sample_world eq_refl) as (H3 & H4 & H5 & H6).
  split; [exact H1|]. split; [exact H3|]. split; [exact H4|].
  rewrite H5, H6. clear H1 H3 H4 H5 H6.
  split; [by vm_compute|]. split; [by vm_compute|].
  split; [by vm_compute|]. split; [by vm_compute|].
  split; [by vm_compute|]. split; [by vm_compute|]. exact H2.
Qed.

(** C2: in both notebooks [weights_res_in_scaled] is [weights_res_in] with
    every entry multiplied by 5e-4, and [weights_rec_scaled] is the loaded
    [weights_rec] with the entries of the four blocks (rows [0,128) x columns
    [128,640), rows [128,640) x columns [128,640), rows [128,640) x columns
    [640,end), each by 8e-5, and rows [640,end) x columns [128,640) by 1e-4)
    multiplied by their base weight and every other entry as loaded.  In the
    workshop notebook [weights_res_in] is the loaded file; in the Demo
    notebook it is the loaded expansion weights joined with a 4 x 640 block
    of zeros, which numpy accepts when the expansion weights have 4 rows. *)
Theorem C2_weight_scaling (w : World vector matrix) :
  scaled_from (Workshop.run w).1
    (data (weights_res_in_npy w)) (data (weights_rec_npy w)) /\
  (nrows (weights_expand_npy w) = 4 ->
   scaled_from (Demo.run w).1
     (hstack (data (weights_expand_npy w)) (zeros 4 640)) (data (weights_rec_npy w))).
Proof.
  split.
  - destruct (workshop_weights w) as (H1 & H2 & H3 & H4).
    exact (scaled_from_intro _ _ _ H1 H2 H3 H4).
  - intros Hrows. destruct (demo_weights w Hrows) as (H1 & H2 & H3 & H4).
    exact (scaled_from_intro _ _ _ H1 H2 H3 H4).
Qed.

(** C2 in [sample_world], where the expansion weights have four rows. *)
Lemma C2_weight_scaling_witness :
  nrows (weights_expand_npy sample_world) = 4 /\
  scaled_from (Demo.run sample_world).1
    (hstack (data (weights_expand_npy sample_world)) (zeros 4 640))
    (data (weights_rec_npy sample_world)).
Proof.
  split; [reflexivity|].
  apply (proj2 (C2_weight_scaling sample_world)). reflexivity.
Defined.



Section Claims.
Context {vec mat : Type} `{!Arrays vec mat} (w : World vec mat).

(** C4: run cell after cell, the Demo notebook raises NameError at the
    software readout cell (cell 9, [size_full]) and at the arrangement cell
    (cell 18, [size_in]; with [size_in] bound it would be [size_inhib]); no
    cell ever binds [size_full], [size_in], [size_inhib], [readout],
    [sw_net], [readout_hw] or [hw_net]; no [evolve] is ever called; the cells
    that use these names (10, 14, 15, 21, 22 and 25) raise NameError too, and
    the cell that loads the hardware readout (24) fails.  "Restart and run
    all" stops at cell 9 with that NameError (or already at cell 5, if numpy
    refuses to join expansion weights that do not have four rows). *)
Theorem C4_demo_notebook_raises_NameError :
  let r := Demo.run w in
  r.2 !! 9 = Some (Some (NameError "size_full")) /\
  r.2 !! 18 = Some (Some (NameError "size_in")) /\
  (forall n, (run_cell (assign "size_in" n;; Demo.cell_arrangement w) r.1).2
             = Some (NameError "size_inhib")) /\
  Forall (fun x => names r.1 !! x = None)
    ["size_full"; "size_in"; "size_inhib"; "readout"; "sw_net"; "readout_hw"; "hw_net"] /\
  never_calls "evolve" (trace r.1) /\
  Forall (fun i => exists x, r.2 !! i = Some (Some (NameError x))) [10; 14; 15; 21; 22; 25] /\
  (exists e, r.2 !! 24 = Some (Some e)) /\
  (Demo.run_to_first_error w).2 =
    Some (if bool_decide (nrows (weights_expand_npy w) = 4)
          then (9, NameError "size_full") else (5, ValueError)).
Proof.
  cbv zeta. rewrite demo_outcomes.
  split; [by destruct (bool_decide _), (bool_decide _)|].
  split; [by destruct (bool_decide _), (bool_decide _)|].
  split; [apply demo_arrangement_needs_size_inhib|].
  split. { repeat (constructor; [apply demo_unbound; listed_name|]). constructor. }
  split. { apply never_calls_intro. by destruct (demo_checks w) as (_&_&_&_&_&_&H). }
  split. { destruct (bool_decide _), (bool_decide _);
             repeat (constructor; [by eexists|]); constructor. }
  split; [destruct (bool_decide _), (bool_decide _); by eexists|].
  apply demo_first_error.
Qed.

(** C5: in both notebooks nothing is assigned to a reservoir and no method
    is called on one, the arrays a reservoir was built from are not updated
    in place afterwards, and the only attribute assignments go to the
    [weights] and [bias] of objects built by [FFExpSyn]: in the workshop
    notebook the four assignments from the loaded files, in the Demo notebook
    none (its cells fail before). *)
Theorem C5_reservoir_stays_fixed :
  (let s := (Workshop.run w).1 in
   let t := trace s in
   class_of t (global s "reservoir") = Some "RecIAFSpkInNest" /\
   class_of t (global s "reservoir_hw") = Some "RecDynapSE" /\
   class_of t (global s "readout") = Some "FFExpSyn" /\
   class_of t (global s "readout_hw") = Some "FFExpSyn" /\
   reservoirs_left_alone t /\ reservoir_weights_frozen t /\ only_readouts_assigned t /\
   attribute_writes t =
     [(global s "readout", "weights", Some (stored (readout_weights_npy w)));
      (global s "readout", "bias", Some (Arr1 (readout_bias_npy w)));
      (global s "readout_hw", "weights",
       Some (keep_rows (arr_columns first4) (readout_weights_hw_npy w)));
      (global s "readout_hw", "bias",
       Some (Arr1 (arr_vslice first4 (readout_bias_hw_npy w))))]) /\
  (let t := trace (Demo.run w).1 in
   reservoirs_left_alone t /\ reservoir_weights_frozen t /\ only_readouts_assigned t /\
   attribute_writes t = []).
Proof.
  cbv zeta. split.
  - destruct (workshop_classes w) as (_ & _ & C1 & C2 & _ & C3 & C4 & _).
    destruct (workshop_checks w) as (_ & H1 & H2 & H3 & _).
    split; [exact C1|]. split; [exact C3|]. split; [exact C2|]. split; [exact C4|].
    split; [exact (reservoirs_left_alone_intro _ H2)|].
    split; [exact (reservoir_weights_frozen_intro _ H3)|].
    split; [exact (only_readouts_assigned_intro _ H1)|].
    apply workshop_writes.
  - destruct (demo_checks w) as (_ & H1 & H2 & H3 & _).
    split; [exact (reservoirs_left_alone_intro _ H2)|].
    split; [exact (reservoir_weights_frozen_intro _ H3)|].
    split; [exact (only_readouts_assigned_intro _ H1)|].
    apply demo_writes.
Qed.

(** C6: neither notebook calls [train_rr]; in the workshop notebook the
    readouts' weights and bias are assigned four times, each time the array
    that [np.load] has just read from a [.npy] file (for the hardware readout,
    its first four columns or entries); in the Demo notebook nothing is
    assigned. *)
Theorem C6_no_training_readout_parameters_loaded :
  (let s := (Workshop.run w).1 in
   let t := trace s in
   never_calls "train_rr" t /\
   assignments (steps t) =
     [(global s "readout", "weights", Some "network/readout_weights.npy");
      (global s "readout", "bias", Some "network/readout_bias.npy");
      (global s "readout_hw", "weights", Some "network/readout_weights_hw.npy");
      (global s "readout_hw", "bias", Some "network/readout_bias_hw.npy")] /\
   attribute_writes t =
     [(global s "readout", "weights", Some (stored (readout_weights_npy w)));
      (global s "readout", "bias", Some (Arr1 (readout_bias_npy w)));
      (global s "readout_hw", "weights",
       Some (keep_rows (arr_columns first4) (readout_weights_hw_npy w)));
      (global s "readout_hw", "bias",
       Some (Arr1 (arr_vslice first4 (readout_bias_hw_npy w))))]) /\
  (let t := trace (Demo.run w).1 in
   never_calls "train_rr" t /\ attribute_writes t = []).
Proof.
  cbv zeta. split; [split; [|split]|split].
  - apply never_calls_intro. destruct (workshop_checks w) as (_&_&_&_&H&_). exact H.
  - rewrite workshop_timeline. reflexivity.
  - apply workshop_writes.
  - apply never_calls_intro. destruct (demo_checks w) as (_&_&_&_&H&_). exact H.
  - apply demo_writes.
Qed.


End Claims.

(** C9: in the workshop notebook [NUM_ANOM_CLASSES] is 4; the hardware
    readout is built with the zero matrix of [reservoir_hw.size] rows and 4
    columns; it is assigned the first four columns of the stored weights and
    the first four entries of the stored bias, which are exactly four wide
    when the stored arrays have at least four columns and entries. *)
Theorem C9_hardware_readout_has_four_channels (w : World vector matrix) :
  Forall (fun row => 4 <= length row) (data (readout_weights_hw_npy w)) ->
  4 <= length (readout_bias_hw_npy w) ->
  let s := (Workshop.run w).1 in
  let t := trace s in
  let size := layer_size w (call_index (global s "reservoir_hw")) in
  exists weights_hw bias_hw,
    names s !! "NUM_ANOM_CLASSES" = Some (VInt 4) /\
    class_of t (global s "reservoir_hw") = Some "RecDynapSE" /\
    constructor_array t (global s "readout_hw") "weights" = Some (Arr2 size (zeros size 4)) /\
    drop 2 (attribute_writes t) =
      [(global s "readout_hw", "weights",
        Some (Arr2 (nrows (readout_weights_hw_npy w)) weights_hw));
       (global s "readout_hw", "bias", Some (Arr1 bias_hw))] /\
    weights_hw = take 4 <$> data (readout_weights_hw_npy w) /\
    bias_hw = take 4 (readout_bias_hw_npy w) /\
    Forall (fun row => length row = 4) weights_hw /\
    length bias_hw = 4.
Proof.
  intros Hrows Hbias. cbv zeta.
  exists (take 4 <$> data (readout_weights_hw_npy w)), (take 4 (readout_bias_hw_npy w)).
  destruct (workshop_constants w) as (_ & H1 & _).
  destruct (workshop_classes w) as (_ & _ & _ & _ & _ & H2 & _).
  destruct (workshop_readouts w) as (_ & H3).
  split; [exact H1|]. split; [exact H2|]. split; [exact H3|]. clear H1 H2 H3.
  split.
  { rewrite workshop_writes. unfold keep_rows. simpl.
    by rewrite columns_first4, vslice_first4. }
  split; [done|]. split; [done|]. split.
  - clear Hbias. induction Hrows as [|row rows Hrow _ IH]; constructor; [|exact IH].
    rewrite length_take. lia.
  - rewrite length_take. lia.
Qed.

(** C9 in [sample_world], whose stored hardware readout has five columns
    and entries. *)
Lemma C9_hardware_readout_witness :
  Forall (fun row => length row = 4)
    (take 4 <$> data (readout_weights_hw_npy sample_world)) /\
  length (take 4 (readout_bias_hw_npy sample_world)) = 4.
Proof.
  assert (Forall (fun row => 4 <= length row) (data (readout_weights_hw_npy sample_world)))
    as Hrows by (repeat constructor).
  assert (4 <= length (readout_bias_hw_npy sample_world)) as Hbias by (vm_compute; lia).
  destruct (C9_hardware_readout_has_four_channels sample_world Hrows Hbias)
    as (wh & bh & _ & _ & _ & _ & -> & -> & H1 & H2).
  split; [exact H1|exact H2].
Defined.

(** C10: when the arrangement function returns ids on its rectangle (rows
    of 16, upper left corner [first], [width] wide), [neuron_ids], collected
    from the rectangles at 4, 256, 768 and 516 of widths 8, 16, 16 and 8,
    contains none of the virtual neuron ids 1, 2, 3 and 12. *)
Theorem C10_neuron_ids_disjoint_from_virtual_ids {vec mat : Type} `{!Arrays vec mat}
    (w : World vec mat) :
  on_grid w ->
  let s := (Workshop.run w).1 in
  let ids := (((rectangle w 4 128 8 ++ rectangle w 256 256 16) ++ rectangle w 768 256 16)
              ++ rectangle w 516 128 8)%list in
  names s !! "neuron_ids" = Some (VInts ids) /\
  names s !! "virtual_neuron_ids" = Some (VInts [1; 2; 3; 12]%Z) /\
  forall id, id ∈ ids -> id ∉ [1; 2; 3; 12]%Z.
Proof.
  intros Hgrid. cbv zeta.
  destruct (workshop_constants w) as (_ & _ & H1 & H2).
  split; [exact H2|]. split; [exact H1|]. clear H1 H2.
  intros id Hid Hv.
  assert (id = 1 \/ id = 2 \/ id = 3 \/ id = 12)%Z as Hcases.
  { repeat (apply elem_of_cons in Hv as [->|Hv]); [lia..|]. by apply elem_of_nil in Hv. }
  clear Hv. repeat (apply elem_of_app in Hid as [Hid|Hid]);
    apply Hgrid in Hid as (r & c & Hr & Hc & ->); lia.
Qed.

(** C10 in [sample_world], whose arrangement function is [grid_rectangle]. *)
Lemma C10_neuron_ids_disjoint_witness :
  on_grid sample_world /\
  forall id, id ∈ (((grid_rectangle 4 128 8 ++ grid_rectangle 256 256 16)
                    ++ grid_rectangle 768 256 16) ++ grid_rectangle 516 128 8)%list ->
             id ∉ [1; 2; 3; 12]%Z.
Proof.
  assert (on_grid sample_world) as Hgrid.
  { intros first num width id. apply grid_rectangle_on_grid. }
  split; [exact Hgrid|].
  apply (C10_neuron_ids_disjoint_from_virtual_ids sample_world Hgrid).
Defined.

(** ** Further properties of the notebooks *)

Section Observations.
Context {vec mat : Type} `{!Arrays vec mat}.

Lemma workshop_observation (w : World vec mat) :
  observe (Workshop.run w) = workshop_observed w (Workshop.run w).1.
Proof.
  destruct w as [[? ?] [? ?] [? ?] [? ?] ? [? ?] ? hw lsize rect lbls ip].
  destruct ip; destruct lbls as [|? [|? [|? [|? [|? lbls]]]]];
    vm_compute; reflexivity.
Qed.

Lemma demo_observation (w : World vec mat) :
  observe (Demo.run w) = demo_observed w (Demo.run w).1.
Proof.
  destruct w as [[? ?] [? ?] [rows ?] [? ?] ? [? ?] ? hw lsize rect lbls ip];
  destruct hw as [[[? ?] ?]|];
  destruct rows as [|[|[|[|[|rows]]]]]; vm_compute; reflexivity.
Qed.
End Observations.

Section Runner.
Context {vec mat : Type}.

End Runner.


Lemma elem_hstack_zeros (a : matrix) (n k i : nat) (row : list float) :
  a !! i = Some row -> i < n ->
  (forall j, j < length row -> elem (hstack a (zeros n k)) i j = row !! j) /\
  (forall j, j < k -> elem (hstack a (zeros n k)) i (length row + j) = Some 0%float).
Proof.
  intros Hrow Hi. unfold elem, hstack, zeros.
  rewrite lookup_zip_with, Hrow. simpl.
  rewrite lookup_replicate_2 by done. simpl. split; intros j Hj.
  - by rewrite lookup_app_l.
  - rewrite lookup_app_r by lia.
    replace (length row + j - length row) with j by lia.
    by apply lookup_replicate_2.
Qed.

(** Conjuncts are closed by the hypothesis with the same left-hand side,
    compared as written. *)
Ltac pick_equations :=
  repeat match goal with |- _ /\ _ => split end;
  match goal with H : ?x = _ |- ?y = _ => constr_eq x y; exact H end.

Ltac project f H lemma :=
  pose proof (f_equal f lemma) as H;
  cbv [f observe workshop_observed demo_observed] in H.

Section Extras.
Context {vec mat : Type} `{!Arrays vec mat} (w : World vec mat).


(** X2: the workshop notebook runs [pip install ipympl] exactly when
    [find_spec('ipympl')] finds nothing; the Demo notebook runs no shell
    command. *)
Theorem pip_install_only_when_ipympl_is_missing :
  shell_commands (trace (Workshop.run w).1)
    = (if ipympl_installed w then [] else ["pip install ipympl"]) /\
  shell_commands (trace (Demo.run w).1) = [].
Proof.
  project shells H1 (workshop_observation w). project shells H2 (demo_observation w).
  split; [exact H1|exact H2].
Qed.


(** X4: the Demo notebook never imports [TSContinuous] (the workshop
    notebook does, from rockpool): both of its plotting cells, 16 and 26,
    raise NameError on it, and no panel of a result figure is drawn. *)
Theorem demo_never_imports_TSContinuous :
  names (Demo.run w).1 !! "TSContinuous" = None /\
  (Demo.run w).2 !! 16 = Some (Some (NameError "TSContinuous")) /\
  (Demo.run w).2 !! 26 = Some (Some (NameError "TSContinuous")) /\
  panels (trace (Demo.run w).1) = [] /\
  names (Workshop.run w).1 !! "TSContinuous" = Some (VGlobal "rockpool" "TSContinuous").
Proof.
  project series_class H1 (demo_observation w).
  project series_class H2 (workshop_observation w).
  project figure_panels H3 (demo_observation w).
  split; [exact H1|]. rewrite demo_outcomes.
  split; [by destruct (bool_decide _), (bool_decide _)|].
  split; [by destruct (bool_decide _), (bool_decide _)|].
  split; [exact H3|exact H2].
Qed.

(** X5: the files the notebooks hand to [np.load], in order.  The Demo
    notebook asks for the hardware readout weights under the name
    [network/readout_weights_hw.py]: cell 24 raises FileNotFoundError when
    there is no such file, and NameError [readout_hw] when there is; the
    bias file is never asked for. *)
Theorem files_the_notebooks_load :
  loaded_paths (trace (Workshop.run w).1) =
    ["network/weights_res_in.npy"; "network/weights_rec.npy";
     "network/kwargs_reservoir.npz"; "network/readout_weights.npy";
     "network/readout_bias.npy"; "network/readout_weights_hw.npy";
     "network/readout_bias_hw.npy"] /\
  loaded_paths (trace (Demo.run w).1) =
    (["network/weights_expand.npy"] ++
     (if bool_decide (nrows (weights_expand_npy w) = 4)
      then ["network/weights_rec.npy"] else []) ++
     ["network/kwargs_reservoir.npz"; "network/readout_weights.npy";
      "network/readout_weights_hw.py"])%list /\
  (Demo.run w).2 !! 24 =
    Some (Some (if bool_decide (is_Some (readout_hw_py w))
                then NameError "readout_hw"
                else FileNotFoundError "network/readout_weights_hw.py")).
Proof.
  project files H1 (workshop_observation w). project files H2 (demo_observation w).
  split; [exact H1|]. split; [exact H2|]. rewrite demo_outcomes.
  by destruct (bool_decide _), (bool_decide _).
Qed.

(** X6: in the Demo notebook no neuron arrangement is requested and no
    [RecDynapSE] is built.  When the software reservoir exists, the
    controller cell still creates the controller and loads the biases before
    it stops at [neuron_ids]; it never silences hot neurons. *)
Theorem demo_hardware_cells_stop_early :
  let s := (Demo.run w).1 in
  let t := trace s in
  let joined := bool_decide (nrows (weights_expand_npy w) = 4) in
  fst <$> calls_to "rockpool.devices" "rectangular_neuron_arrangement" t = [] /\
  fst <$> calls_to "rockpool.devices" "DynapseControlExtd" t =
    (if joined then [[Kw "fpga_isibase" (VAttr (global s "reservoir") "dt")]] else []) /\
  method_calls ["load_biases"; "silence_hot_neurons"] t =
    (if joined
     then [(global s "controller", "load_biases", [Pos (VStr "network/biases.py")])]
     else []) /\
  fst <$> calls_to "rockpool.layers" "RecDynapSE" t = [] /\
  (Demo.run w).2 !! 19 =
    Some (Some (NameError (if joined then "neuron_ids" else "reservoir"))) /\
  (Demo.run w).2 !! 20 =
    Some (Some (NameError (if joined then "neuron_ids" else "weights_res_in"))).
Proof.
  cbv zeta.
  project arrangements H1 (demo_observation w).
  project controllers H2 (demo_observation w).
  project hardware_calls H3 (demo_observation w).
  project hw_keywords H4 (demo_observation w).
  apply fmap_nil_inv in H4.
  split; [exact H1|]. split; [exact H2|]. split; [exact H3|]. split; [exact H4|].
  rewrite demo_outcomes. clear.
  split; by destruct (bool_decide _), (bool_decide _).
Qed.

(** X7: the hardware set-up of the workshop notebook: four rectangles are
    requested, one controller is created, the biases are loaded from
    [network/biases.py], hot neurons are silenced for 5 s on the collected
    neuron ids, and [RecDynapSE] is built on those same ids with the four
    virtual ids, that same controller, [dt = 0.1 * reservoir.dt] and
    [skip_weights=True]. *)
Theorem workshop_hardware_setup :
  let s := (Workshop.run w).1 in
  let t := trace s in
  let ids := neuron_ids_of w in
  fst <$> calls_to "rockpool.devices" "rectangular_neuron_arrangement" t =
    [[StarStar (Workshop.rectangle_params 4 128 8)];
     [StarStar (Workshop.rectangle_params 256 256 16)];
     [StarStar (Workshop.rectangle_params 768 256 16)];
     [StarStar (Workshop.rectangle_params 516 128 8)]] /\
  fst <$> calls_to "rockpool.devices" "DynapseControlExtd" t = [[]] /\
  method_calls ["load_biases"; "silence_hot_neurons"] t =
    [(global s "controller", "load_biases", [Pos (VStr "network/biases.py")]);
     (global s "controller", "silence_hot_neurons", [Pos (VInts ids); Pos (VInt 5)])] /\
  keywords ["neuron_ids"; "virtual_neuron_ids"; "controller"; "dt"; "skip_weights";
            "clearcores_list"; "name"]
    <$> (fst <$> calls_to "rockpool.layers" "RecDynapSE" t) =
    [[Some (VInts ids); Some (VInts [1; 2; 3; 12]%Z); Some (global s "controller");
      Some (VOp "mul" [VFloat 0.1; VAttr (global s "reservoir") "dt"]);
      Some (VBool true); None; Some (VStr "hardware")]].
Proof.
  cbv zeta.
  project arrangements H1 (workshop_observation w).
  project controllers H2 (workshop_observation w).
  project hardware_calls H3 (workshop_observation w).
  project hw_keywords H4 (workshop_observation w).
  unfold hw_keyword_names in H4.
  split; [exact H1|]. split; [exact H2|]. split; [exact H3|exact H4].
Qed.

(** X8: in the workshop notebook the scaled arrays are handed to
    [RecIAFSpkInNest] and to nothing else, and the loaded arrays, which the
    scaling leaves as loaded, to [RecDynapSE] and to nothing else. *)
Theorem workshop_reservoirs_get_their_weights :
  let s := (Workshop.run w).1 in
  let t := trace s in
  weights_given <$> calls_to "rockpool.layers" "RecIAFSpkInNest" t =
    [(Some (Arr2 (nrows (weights_res_in_npy w)) (arr_mul 5e-4 (data (weights_res_in_npy w)))),
      Some (Arr2 (nrows (weights_rec_npy w)) (scale_rec (data (weights_rec_npy w)))))] /\
  weights_given <$> calls_to "rockpool.layers" "RecDynapSE" t =
    [(Some (Arr2 (nrows (weights_res_in_npy w)) (data (weights_res_in_npy w))),
      Some (Arr2 (nrows (weights_rec_npy w)) (data (weights_rec_npy w))))] /\
  handed_to s "weights_res_in_scaled" = [VGlobal "rockpool.layers" "RecIAFSpkInNest"] /\
  handed_to s "weights_rec_scaled" = [VGlobal "rockpool.layers" "RecIAFSpkInNest"] /\
  handed_to s "weights_res_in" = [VGlobal "rockpool.layers" "RecDynapSE"] /\
  handed_to s "weights_rec" = [VGlobal "rockpool.layers" "RecDynapSE"].
Proof.
  cbv zeta. destruct (workshop_reservoirs w) as [H1 H2].
  unfold keep_rows, stored in H1, H2.
  project recipients H (workshop_observation w).
  cbv [weight_names fmap list_fmap] in H. entries H.
  split; [exact H1|]. split; [exact H2|]. pick_equations.
Qed.

(** X9: in the Demo notebook the scaled arrays are handed to [plt.imshow]
    only (when they exist at all). *)
Theorem demo_scaled_weights_are_only_shown :
  let s := (Demo.run w).1 in
  let shown := if bool_decide (nrows (weights_expand_npy w) = 4)
               then [VAttr (VModule "matplotlib.pyplot") "imshow"] else [] in
  handed_to s "weights_res_in_scaled" = shown /\
  handed_to s "weights_rec_scaled" = shown.
Proof.
  cbv zeta. project recipients H (demo_observation w).
  cbv [weight_names fmap list_fmap] in H. revert H.
  destruct (bool_decide (nrows (weights_expand_npy w) = 4)); intros H;
    entries H; pick_equations.
Qed.

(** X10: when the stored expansion weights do not have four rows, the
    weights cell of the Demo notebook raises ValueError at [np.hstack]:
    [weights_expand] stays bound, none of the four weight matrices is ever
    bound, and the reservoir cell raises NameError instead of building a
    reservoir. *)
Theorem demo_expansion_weights_need_four_rows :
  nrows (weights_expand_npy w) <> 4 ->
  let r := Demo.run w in
  r.2 !! 5 = Some (Some ValueError) /\
  Forall (fun x => names r.1 !! x = None)
    ["weights_res_in"; "weights_rec"; "weights_res_in_scaled"; "weights_rec_scaled"] /\
  is_Some (names r.1 !! "weights_expand") /\
  calls_to "rockpool.layers" "RecIAFSpkInNest" (trace r.1) = [] /\
  r.2 !! 8 = Some (Some (NameError "weights_res_in")).
Proof.
  intros Hrows. cbv zeta.
  project weights_bound H (demo_observation w).
  pose proof (f_equal sw_reservoirs (demo_summary w)) as H2.
  cbv [sw_reservoirs summarize demo_expected] in H2.
  rewrite demo_outcomes.
  rewrite bool_decide_eq_false_2 in H, H2 |- * by done.
  apply fmap_nil_inv in H2.
  cbv [weight_names fmap list_fmap] in H. entries H.
  split; [by destruct (bool_decide _)|].
  split.
  { repeat (constructor;
            [apply eq_None_not_Some;
             match goal with E : bool_decide (is_Some ?x) = false |- ~ is_Some ?x =>
               exact (proj1 (bool_decide_eq_false _) E) end|]).
    constructor. }
  split.
  { match goal with E : bool_decide (is_Some ?x) = true |- is_Some ?x =>
      exact (proj1 (bool_decide_eq_true _) E) end. }
  split; [exact H2|]. clear. by destruct (bool_decide _).
Qed.

End Extras.

(** X10 in [short_world], whose expansion weights have three rows. *)
Lemma demo_expansion_weights_need_four_rows_witness :
  nrows (weights_expand_npy short_world) <> 4 /\
  (Demo.run short_world).2 !! 5 = Some (Some ValueError).
Proof.
  assert (nrows (weights_expand_npy short_world) <> 4) as H by (vm_compute; lia).
  split; [exact H|].
  exact (proj1 (demo_expansion_weights_need_four_rows short_world H)).
Defined.

(** X12: the input weights of the Demo notebook are the loaded expansion
    weights followed, in every row, by 640 zeros, which the scaling keeps
    zero: the input reaches the expansion layer only. *)
Theorem demo_input_weights_zero_beyond_expansion (w : World vector matrix)
    (i k : nat) (row : list float) :
  nrows (weights_expand_npy w) = 4 ->
  data (weights_expand_npy w) !! i = Some row -> i < 4 -> k < 640 ->
  exists m ms,
    bound_matrix (Demo.run w).1 "weights_res_in" = Some m /\
    bound_matrix (Demo.run w).1 "weights_res_in_scaled" = Some ms /\
    (forall j, j < length row -> elem m i j = row !! j) /\
    elem m i (length row + k) = Some 0%float /\
    elem ms i (length row + k) = Some 0%float.
Proof.
  intros Hrows Hrow Hi Hk.
  destruct (demo_weights w Hrows) as (H1 & _ & H2 & _).
  eexists _, _. split; [exact H1|]. split; [exact H2|]. clear H1 H2.
  destruct (elem_hstack_zeros (data (weights_expand_npy w)) 4 640 i row Hrow Hi)
    as [Ha Hb].
  split; [exact Ha|]. split; [exact (Hb k Hk)|].
  simpl. rewrite elem_mul_scalar. simpl in Hb. rewrite (Hb k Hk). reflexivity.
Qed.

(** X12 in [sample_world]: entry [(0, 1)], right after the one expansion
    column, is zero. *)
Lemma demo_input_weights_zero_witness :
  exists m, bound_matrix (Demo.run sample_world).1 "weights_res_in" = Some m /\
            elem m 0 1 = Some 0%float.
Proof.
  destruct (demo_input_weights_zero_beyond_expansion sample_world 0 0 [1%float])
    as (m & ms & H1 & _ & _ & H2 & _); [reflexivity|reflexivity|lia|lia|].
  exists m. split; [exact H1|exact H2].
Defined.
